(** * hugegmaps: a grid of map screenshots stitched into one image

    Shallow embedding of [hugegmaps.py] and the properties of its
    geometry, cropping, scaling, stitching and session workflow.

    Conventions of the embedding.
    - A Python [int] is a [Z].  A Python [float] is a rational [Q] with
      exact arithmetic: the decimal literals of the source are the same
      literals here, and the rounding error of binary64 is not modelled.
    - [int(x)] on a float truncates toward zero ([py_int]); [round(x)]
      rounds to the nearest integer, ties to the even one ([py_round]).
    - An image is its size together with its pixel function.
    - Effects (browser, screen, file system, clock, console) are events
      of a trace; a collaborator that may fail is an oracle of the
      [World] the program runs in. *)

From Stdlib Require Import ZArith NArith QArith Qround Qabs Lia Lqa.
From Stdlib Require Import List String Ascii Bool Floats.
Import ListNotations.

Set Implicit Arguments.

Local Open Scope Q_scope.

(** ** Python numbers *)

Module Py.

(** [int(x)] for a float [x]: truncation toward zero. *)
Definition int (x : Q) : Z := Z.quot (Qnum x) (Zpos (Qden x)).

(** [round(x)] for a float [x]: nearest integer, a tie goes to the
    even neighbour. *)
Definition round (x : Q) : Z :=
  let f := Qfloor x in
  match Qcompare (x - inject_Z f) (1 # 2) with
  | Lt => f
  | Gt => (f + 1)%Z
  | Eq => if Z.even f then f else (f + 1)%Z
  end.

(** [math.floor] and [math.ceil]. *)
Definition floor (x : Q) : Z := Qfloor x.
Definition ceil (x : Q) : Z := Qceiling x.

(** [range(n)]: empty when [n <= 0]. *)
Definition range (n : Z) : list nat := seq 0 (Z.to_nat n).

(** An [int] used in float arithmetic. *)
Definition float (n : Z) : Q := inject_Z n.

End Py.

(** ** Geometry: coordinate shift per grid step *)

(** [calc_latitude_shift(screen_height, percent_hidden)] *)
Definition calc_latitude_shift (screen_height : Z) (percent_hidden : Q) : Q :=
  -0.000002051 * Py.float screen_height * (1 - percent_hidden) * 2.1.

(** [calc_longitude_shift(screen_width, percent_hidden)] *)
Definition calc_longitude_shift (screen_width : Z) (percent_hidden : Q) : Q :=
  0.00000268 * Py.float screen_width * (1 - percent_hidden) * 2.

(** ** Region cropping *)

Definition bbox : Type := (Z * Z * Z * Z)%type.

(** The bounding box handed to [pyscreenshot.grab] by [screenshot]. *)
Definition screenshot_bbox (screen_width screen_height : Z)
    (offset_left offset_top offset_right offset_bottom : Q) : bbox :=
  let x1 := offset_left * Py.float screen_width in
  let y1 := offset_top * Py.float screen_height in
  let x2 :=
    (offset_right * Py.float (- screen_width)) + Py.float screen_width in
  let y2 :=
    (offset_bottom * Py.float (- screen_height)) + Py.float screen_height in
  (Py.int x1, Py.int y1, Py.int x2, Py.int y2).

(** ** Exceptions and the two monads of the program *)

Inductive exn : Type :=
| AssertionError
| AttributeError
| IndexError
| ValueError
| ZeroDivisionError
| CollaboratorError (who : string).

(** A computation that returns or raises. *)
Definition result (A : Type) : Type := (exn + A)%type.

Class Monad (m : Type -> Type) : Type :=
  { ret : forall {A}, A -> m A;
    bind : forall {A B}, m A -> (A -> m B) -> m B;
    throw : forall {A}, exn -> m A }.

Declare Scope py_scope.
Delimit Scope py_scope with py.
Notation "x <- c1 ;; c2" := (bind c1 (fun x => c2))
  (at level 100, c1 at next level, right associativity) : py_scope.
Notation "' p <- c1 ;; c2" := (bind c1 (fun p => c2))
  (at level 100, p pattern, c1 at next level, right associativity) : py_scope.
Notation "c1 ;; c2" := (bind c1 (fun _ => c2))
  (at level 100, right associativity) : py_scope.

#[export] Instance result_monad : Monad result :=
  { ret := fun A a => inr a;
    bind := fun A B c k => match c with inl e => inl e | inr a => k a end;
    throw := fun A e => inl e }.

(** [for x in l: body], threading the mutated object [s]. *)
Fixpoint for_each {m} `{Monad m} {A S : Type}
    (l : list A) (body : A -> S -> m S) (s : S) : m S :=
  match l with
  | [] => ret s
  | x :: l' => bind (body x s) (for_each l' body)
  end.

(** [enumerate(l)] *)
Definition enumerate {A : Type} (l : list A) : list (nat * A) :=
  combine (seq 0 (List.length l)) l.

(** [l[i]], raising [IndexError] out of range. *)
Definition getitem {A : Type} (l : list A) (i : nat) : result A :=
  match nth_error l i with
  | Some a => inr a
  | None => inl IndexError
  end.

(** ** Images (PIL) *)

Definition pixel : Type := (N * N * N)%type.
Definition black : pixel := (0, 0, 0)%N.

Record Image : Type := mkImage
  { width : N;
    height : N;
    getpixel : N -> N -> pixel }.

(** A Python value that is an [Image] or [None]. *)
Definition object : Type := option Image.

(** Attribute access [o.width], [o.height]: [AttributeError] on [None]. *)
Definition attr {A : Type} (f : Image -> A) (o : object) : result A :=
  match o with
  | Some im => inr (f im)
  | None => inl AttributeError
  end.

(** [Image.new('RGB', (w, h))]: a black canvas. *)
Definition Image_new (size : N * N) : Image :=
  {| width := fst size; height := snd size; getpixel := fun _ _ => black |}.

(** Is canvas pixel [(x, y)] covered by [im] pasted at [(x0, y0)]? *)
Definition covers (im : Image) (loc : N * N) (x y : N) : bool :=
  ((fst loc <=? x) && (x <? fst loc + width im) &&
   (snd loc <=? y) && (y <? snd loc + height im))%N.

(** [dst.paste(im, (x0, y0))]: the pixels of [im] replace those of the
    canvas from [(x0, y0)] on; what falls outside the canvas is clipped.
    Pasting something that is not an image raises [ValueError]. *)
Definition paste (dst : Image) (o : object) (loc : N * N) : result Image :=
  match o with
  | Some im =>
      inr {| width := width dst; height := height dst;
             getpixel := fun x y =>
               if covers im loc x y
               then getpixel im (x - fst loc)%N (y - snd loc)%N
               else getpixel dst x y |}
  | None => inl ValueError
  end.

(** ** Stitching *)

(** [combine_images(images)] *)
Definition combine_images (images : list (list object)) : result Image :=
  (row0 <- getitem images 0 ;;
   tile0 <- getitem row0 0 ;;
   imgwidth <- attr width tile0 ;;
   imgheight <- attr height tile0 ;;
   let newsize := (imgwidth * N.of_nat (List.length row0),
                   imgheight * N.of_nat (List.length images))%N in
   let newimage := Image_new newsize in
   for_each (enumerate images) (fun '(rowindex, row) newimage =>
     for_each (enumerate row) (fun '(colindex, image) newimage =>
       let location := (N.of_nat colindex * imgwidth,
                        N.of_nat rowindex * imgheight)%N in
       paste newimage image location) newimage) newimage)%py.


(** ** Scaling *)

(** Python's true division: [ZeroDivisionError] on a zero divisor. *)
Definition truediv (a b : Q) : result Q :=
  if Qeq_bool b 0 then inl ZeroDivisionError else inr (a / b).

(** [min(math.floor(number), math.ceil(number), key=key)], at least 1.
    Python's [min] keeps the first of two candidates with equal keys. *)
Definition round_aspect (number : Q) (key : Z -> Q) : Z :=
  let lo := Py.floor number in
  let hi := Py.ceil number in
  Z.max (if Qle_bool (key lo) (key hi) then lo else hi) 1.

(** The size [Image.thumbnail] (Pillow 7 and later) resizes to: [None]
    when the requested box already holds the image, else the largest
    size of the image's aspect ratio inside the box.  The divisions
    inside the two keys have a divisor already known to be non-zero. *)
Definition preserve_aspect_ratio (im : Image) (size : Z * Z)
    : result (option (Z * Z)) :=
  let '(x, y) := size in
  if ((Z.of_N (width im) <=? x) && (Z.of_N (height im) <=? y))%Z
  then ret None
  else
    (aspect <- truediv (inject_Z (Z.of_N (width im)))
                       (inject_Z (Z.of_N (height im))) ;;
     ratio <- truediv (inject_Z x) (inject_Z y) ;;
     if Qle_bool aspect ratio then
       let x' := round_aspect (inject_Z y * aspect)
                   (fun n => Qabs (aspect - inject_Z n / inject_Z y)) in
       ret (Some (x', y))
     else
       number <- truediv (inject_Z x) aspect ;;
       let y' := round_aspect number
                   (fun n => if (n =? 0)%Z then 0
                             else Qabs (aspect - inject_Z x / inject_Z n)) in
       ret (Some (x, y')))%py.

Section Resampling.

(** The resampling filter of PIL: [resample im w h] is the pixel
    function of [im] resized to [w] by [h].  Its values are not
    modelled. *)
Variable resample : Image -> N -> N -> N -> N -> pixel.

(** [im.resize((x, y))]: a size below one pixel is refused. *)
Definition resize (im : Image) (size : Z * Z) : result Image :=
  let '(x, y) := size in
  if ((x <? 1) || (y <? 1))%Z then throw ValueError
  else ret {| width := Z.to_N x; height := Z.to_N y;
              getpixel := resample im (Z.to_N x) (Z.to_N y) |}.

(** [im.thumbnail(size)] *)
Definition thumbnail (im : Image) (size : Z * Z) : result Image :=
  (target <- preserve_aspect_ratio im size ;;
   match target with
   | None => ret im
   | Some (x, y) =>
       if ((x =? Z.of_N (width im)) && (y =? Z.of_N (height im)))%Z
       then ret im
       else resize im (x, y)
   end)%py.

(** [scale_image(image, scale)] *)
Definition scale_image (image : object) (scale : Q) : result Image :=
  (w <- attr width image ;;
   let width := Py.round (Py.float (Z.of_N w) * scale) in
   h <- attr height image ;;
   let height := Py.round (Py.float (Z.of_N h) * scale) in
   match image with
   | Some im => thumbnail im (width, height)
   | None => throw AttributeError
   end)%py.

End Resampling.

(** ** Strings *)

Definition upper_ascii (c : ascii) : ascii :=
  let n := nat_of_ascii c in
  if ((97 <=? n) && (n <=? 122))%nat then ascii_of_nat (n - 32) else c.

(** [s.upper()] *)
Fixpoint upper (s : string) : string :=
  match s with
  | EmptyString => EmptyString
  | String c s' => String (upper_ascii c) (upper s')
  end.

(** [s.endswith(suffix)] *)
Definition endswith (s suffix : string) : bool :=
  let n := String.length s in
  let m := String.length suffix in
  (m <=? n)%nat && String.eqb (substring (n - m) m s) suffix.

(** ** The session and its collaborators *)

(** ['https://www.google.com/maps/@{lat},{long},18z/data=!3m1!1e3'] with
    its two fields filled in. *)
Inductive url : Type := maps_url (lat long : Q).

(** What the program does to the outside world, in order. *)
Inductive event : Type :=
| Chrome                                  (* webdriver.Chrome() *)
| MaximizeWindow                          (* driver.maximize_window() *)
| ScreenResolution                        (* the tkinter query *)
| Print (u : url)                         (* print(url) *)
| Get (u : url)                           (* driver.get(url) *)
| Sleep (seconds : Q)                     (* time.sleep(sleep_time) *)
| Grab (box : bbox) (out : result object) (* pyscreenshot.grab(bbox=...) *)
| Close                                   (* driver.close() *)
| Quit                                    (* driver.quit() *)
| Combine                                 (* the call of combine_images *)
| Save (path : string) (im : Image).      (* final.save(outfile) *)

(** The collaborators.  Each answer may depend on the history of events
    so far. *)
Record World : Type := mkWorld
  { path_exists : string -> bool;       (* os.path.exists(p) *)
    parent_writable : string -> bool;
      (* os.access(os.path.dirname(os.path.abspath(p)), os.W_OK) *)
    now : string;                       (* datetime.now().strftime(...) *)
    raises : list event -> event -> option exn;
    screen_size : list event -> result (Z * Z);
    grab : list event -> bbox -> result object;
    resample : Image -> N -> N -> N -> N -> pixel }.

(** A computation run after the history [h]: the events it adds, and its
    outcome. *)
Definition M (A : Type) : Type := list event -> list event * result A.

#[export] Instance M_monad : Monad M :=
  { ret := fun A a _ => ([], inr a);
    bind := fun A B c k h =>
      match c h with
      | (t, inl e) => (t, inl e)
      | (t, inr a) => let '(t', r) := k a (h ++ t) in (t ++ t', r)
      end;
    throw := fun A e _ => ([], inl e) }.

(** A pure computation inside a session. *)
Definition lift {A : Type} (r : result A) : M A := fun _ => ([], r).

(** [assert b] *)
Definition assert (b : bool) : M unit :=
  if b then ret tt else throw AssertionError.

(** [l[i] = v], raising [IndexError] out of range. *)
Fixpoint setitem {A : Type} (l : list A) (i : nat) (v : A) : result (list A) :=
  match l, i with
  | [], _ => inl IndexError
  | _ :: l', O => inr (v :: l')
  | a :: l', S i' =>
      match setitem l' i' v with
      | inl e => inl e
      | inr l'' => inr (a :: l'')
      end
  end.

(** [images[row][col] = v] *)
Definition setitem2 {A : Type} (images : list (list A)) (row col : nat) (v : A)
    : result (list (list A)) :=
  (r <- getitem images row ;;
   r' <- setitem r col v ;;
   setitem images row r')%py.

(** Is [outfile] given?  [None] and the empty string are falsy. *)
Definition truthy (outfile : option string) : bool :=
  match outfile with
  | Some p => negb (String.eqb p EmptyString)
  | None => false
  end.

Definition path_of (outfile : option string) : string :=
  match outfile with
  | Some p => p
  | None => EmptyString
  end.

Section Session.

Variable w : World.

(** A call of a collaborator that returns nothing. *)
Definition call (e : event) : M unit :=
  fun h => ([e], match raises w h e with Some x => inl x | None => inr tt end).

(** An effect that cannot fail ([print], the call marker). *)
Definition emit (e : event) : M unit := fun _ => ([e], inr tt).

(** [time.sleep(seconds)]: a negative length is a [ValueError]. *)
Definition sleep (seconds : Q) : M unit :=
  fun _ => ([Sleep seconds],
            if Qle_bool 0 seconds then inr tt else inl ValueError).

(** [get_screen_resolution()] *)
Definition get_screen_resolution : M (Z * Z) :=
  fun h => ([ScreenResolution], screen_size w h).

(** [screenshot(screen_width, screen_height, offset_left, offset_top,
    offset_right, offset_bottom)] *)
Definition screenshot (screen_width screen_height : Z)
    (offset_left offset_top offset_right offset_bottom : Q) : M object :=
  fun h =>
    let box := screenshot_bbox screen_width screen_height
                 offset_left offset_top offset_right offset_bottom in
    let image := grab w h box in
    ([Grab box image], image).

(** [create_map(lat_start, long_start, number_rows, number_cols, scale,
    sleep_time, offset_left, offset_top, offset_right, offset_bottom,
    outfile)] *)
Definition create_map (lat_start long_start : Q)
    (number_rows number_cols : Z) (scale sleep_time : Q)
    (offset_left offset_top offset_right offset_bottom : Q)
    (outfile : option string) : M unit :=
  ((if truthy outfile then
      assert (negb (path_exists w (path_of outfile))) ;;
      assert (parent_writable w (path_of outfile)) ;;
      assert (endswith (upper (path_of outfile)) ".PNG")
    else ret tt) ;;
   call Chrome ;;
   call MaximizeWindow ;;
   let images : list (list object) :=
     map (fun _ => map (fun _ => None) (Py.range number_cols))
         (Py.range number_rows) in
   '(screen_width, screen_height) <- get_screen_resolution ;;
   let lat_shift := calc_latitude_shift screen_height
                      (offset_top + offset_bottom) in
   let long_shift := calc_longitude_shift screen_width
                       (offset_left + offset_right) in
   images <-
     for_each (Py.range number_rows) (fun row images =>
       for_each (Py.range number_cols) (fun col images =>
         let latitude := lat_start + (lat_shift * Py.float (Z.of_nat row)) in
         let longitude := long_start + (long_shift * Py.float (Z.of_nat col)) in
         let url := maps_url latitude longitude in
         emit (Print url) ;;
         call (Get url) ;;
         sleep sleep_time ;;
         image <- screenshot screen_width screen_height
                    offset_left offset_top offset_right offset_bottom ;;
         scaled <- lift (scale_image (resample w) image scale) ;;
         lift (setitem2 images row col (Some scaled))) images) images ;;
   call Close ;;
   call Quit ;;
   emit Combine ;;
   final <- lift (combine_images images) ;;
   let outfile := if truthy outfile then path_of outfile
                  else ("testimg-" ++ now w ++ ".png")%string in
   call (Save outfile final))%py.

End Session.

(** ** Vocabulary of the statements *)

(** The placements of a grid of tiles in the order [combine_images]
    pastes them: every tile with its pixel offset, derived from the size
    [imgwidth] by [imgheight] of the first tile. *)
Definition placements (imgwidth imgheight : N) (tiles : list (list Image))
    : list (Image * (N * N)) :=
  flat_map (fun '(rowindex, row) =>
    map (fun '(colindex, image) =>
      (image, (N.of_nat colindex * imgwidth, N.of_nat rowindex * imgheight)%N))
      (enumerate row)) (enumerate tiles).

(** The pixel shown at [(x, y)] by a stack of pasted tiles, topmost
    first, over a [background]. *)
Definition pixel_of (stack : list (Image * (N * N))) (background : pixel)
    (x y : N) : pixel :=
  match find (fun p => covers (fst p) (snd p) x y) stack with
  | Some (im, loc) => getpixel im (x - fst loc)%N (y - snd loc)%N
  | None => background
  end.

(** The canvas after one more tile is pasted. *)
Definition paste_at (canvas : Image) (p : Image * (N * N)) : Image :=
  {| width := width canvas; height := height canvas;
     getpixel := fun x y =>
       if covers (fst p) (snd p) x y
       then getpixel (fst p) (x - fst (snd p))%N (y - snd (snd p))%N
       else getpixel canvas x y |}.

(** A grid of images as the Python list of lists it is. *)
Definition grid (tiles : list (list Image)) : list (list object) :=
  map (map (@Some Image)) tiles.

(** Does every tile have the size [w] by [h]? *)
Definition uniform (w h : N) (tiles : list (list Image)) : Prop :=
  Forall (Forall (fun im => width im = w /\ height im = h)) tiles.

(** Does some tile differ in size from [w] by [h]? *)
Definition mismatched (w h : N) (tiles : list (list Image)) : bool :=
  existsb (existsb (fun im =>
    negb ((width im =? w) && (height im =? h))%N)) tiles.

(** Is the grid made of [rows] rows of [cols] tiles each? *)
Definition rectangular (rows cols : nat) (tiles : list (list Image)) : Prop :=
  List.length tiles = rows /\ Forall (fun row => List.length row = cols) tiles.

(** ** Sample inputs *)

(** An image of one colour. *)
Definition solid (w h : N) (colour : pixel) : Image :=
  {| width := w; height := h; getpixel := fun _ _ => colour |}.

Definition red : pixel := (255, 0, 0)%N.
Definition green : pixel := (0, 255, 0)%N.
Definition blue : pixel := (0, 0, 255)%N.
Definition white : pixel := (255, 255, 255)%N.

(** Two rows of three tiles, each 100 by 50. *)
Definition tiles_2x3 : list (list Image) :=
  [ [solid 100 50 red; solid 100 50 green; solid 100 50 blue];
    [solid 100 50 green; solid 100 50 blue; solid 100 50 white] ].

(** One row of three tiles 100 by 50, the middle one replaced by a
    larger tile and the last one by a smaller tile. *)
Definition tiles_mixed : list (list Image) :=
  [ [solid 100 50 red; solid 150 50 green; solid 40 20 blue] ].

(** Nearest-neighbour resampling, one possible filter. *)
Definition nearest (im : Image) (w h x y : N) : pixel :=
  getpixel im (x * width im / w)%N (y * height im / h)%N.

(** ** Vocabulary of the session statements *)

(** Events of the grid loop. *)
Definition in_grid (e : event) : bool :=
  match e with
  | Print _ | Get _ | Sleep _ | Grab _ _ => true
  | _ => false
  end.

(** Events that come before the browser is released. *)
Definition before_release (e : event) : bool :=
  match e with
  | Close | Quit | Combine | Save _ _ => false
  | _ => true
  end.

(** A capture that returned [None]. *)
Definition grabbed_none (e : event) : bool :=
  match e with
  | Grab _ (inr None) => true
  | _ => false
  end.

(** A capture that raised or returned [None]. *)
Definition capture_failed (e : event) : bool :=
  match e with
  | Grab _ (inl _) | Grab _ (inr None) => true
  | _ => false
  end.

Definition is_grab (e : event) : bool :=
  match e with Grab _ _ => true | _ => false end.

Definition is_close (e : event) : bool :=
  match e with Close => true | _ => false end.

Definition is_quit (e : event) : bool :=
  match e with Quit => true | _ => false end.

Definition is_combine (e : event) : bool :=
  match e with Combine => true | _ => false end.

Definition is_save (e : event) : bool :=
  match e with Save _ _ => true | _ => false end.

Definition is_chrome (e : event) : bool :=
  match e with Chrome => true | _ => false end.

(** The addresses the browser was sent to, in order. *)
Fixpoint navigations (t : list event) : list url :=
  match t with
  | [] => []
  | Get u :: t' => u :: navigations t'
  | _ :: t' => navigations t'
  end.

(** The address of grid cell [(row, col)]. *)
Definition cell_url (lat_start long_start lat_shift long_shift : Q)
    (row col : nat) : url :=
  maps_url (lat_start + (lat_shift * Py.float (Z.of_nat row)))
           (long_start + (long_shift * Py.float (Z.of_nat col))).

(** The addresses of all cells, row by row. *)
Definition grid_urls (lat_start long_start lat_shift long_shift : Q)
    (number_rows number_cols : Z) : list url :=
  flat_map (fun row =>
    map (cell_url lat_start long_start lat_shift long_shift row)
        (Py.range number_cols)) (Py.range number_rows).

(** The addresses a session is to visit on a screen of the given size. *)
Definition session_urls (lat_start long_start : Q)
    (number_rows number_cols : Z)
    (offset_left offset_top offset_right offset_bottom : Q)
    (screen_width screen_height : Z) : list url :=
  grid_urls lat_start long_start
    (calc_latitude_shift screen_height (offset_top + offset_bottom))
    (calc_longitude_shift screen_width (offset_left + offset_right))
    number_rows number_cols.

(** Two addresses with equal coordinates. *)
Definition url_eq (u v : url) : Prop :=
  match u, v with
  | maps_url lat1 long1, maps_url lat2 long2 => lat1 == lat2 /\ long1 == long2
  end.

(** What a portion of the grid loop may do: [t] and [r] are the trace and
    the outcome of a loop that is to visit the addresses [expected]. *)
Definition loop_ok {S : Type} (expected : list url)
    (t : list event) (r : result S) : Prop :=
  forallb in_grid t = true /\
  (existsb capture_failed t = true -> exists e, r = inl e) /\
  (existsb grabbed_none t = true -> r = inl AttributeError) /\
  (exists rest, expected = navigations t ++ rest) /\
  (forall s, r = inr s -> navigations t = expected).

(** ** The geometry in binary64

    The functions of the geometry once more, in the IEEE 754 binary64
    arithmetic of Python's [float], to evaluate them at sample inputs
    next to the rational model. *)

Module Binary64.

(** [float(n)]: the integer rounded to the nearest binary64 value. *)
Definition of_int (n : Z) : float :=
  SF2Prim (binary_normalize prec emax n 0 false).

(** [int(x)]: truncation toward zero; [None] where Python raises, on an
    infinity or a NaN. *)
Definition to_int (x : float) : option Z :=
  match Prim2SF x with
  | S754_zero _ => Some 0%Z
  | S754_finite s m e =>
      let z := if (0 <=? e)%Z then (Zpos m * 2 ^ e)%Z
               else Z.shiftr (Zpos m) (- e) in
      Some (if s then (- z)%Z else z)
  | _ => None
  end.

#[warnings="-inexact-float"]
Definition calc_latitude_shift (screen_height : Z) (percent_hidden : float)
    : float :=
  (- 0.000002051 * of_int screen_height * (1 - percent_hidden) * 2.1)%float.

#[warnings="-inexact-float"]
Definition calc_longitude_shift (screen_width : Z) (percent_hidden : float)
    : float :=
  (0.00000268 * of_int screen_width * (1 - percent_hidden) * 2)%float.

Definition screenshot_bbox (screen_width screen_height : Z)
    (offset_left offset_top offset_right offset_bottom : float)
    : option Z * option Z * option Z * option Z :=
  let x1 := (offset_left * of_int screen_width)%float in
  let y1 := (offset_top * of_int screen_height)%float in
  let x2 := (offset_right * of_int (- screen_width)
             + of_int screen_width)%float in
  let y2 := (offset_bottom * of_int (- screen_height)
             + of_int screen_height)%float in
  (to_int x1, to_int y1, to_int x2, to_int y2).

End Binary64.

(** ** Sample worlds *)

(** What the screen shows inside a box: here a white image of the size
    of the box. *)
Definition shot (box : bbox) : Image :=
  let '(x1, y1, x2, y2) := box in
  solid (Z.to_N (x2 - x1)) (Z.to_N (y2 - y1)) white.

(** The number of captures in a history. *)
Definition count_grabs (h : list event) : nat :=
  List.length (filter is_grab h).

(** A world where nothing fails, on a 1920 by 1080 screen, except that
    capture number [n] (counted from 0) is answered by [answer]. *)
Definition world_with (n : nat) (answer : result object) : World :=
  {| path_exists := fun _ => false;
     parent_writable := fun _ => true;
     now := "2020-01-01T00-00-00";
     raises := fun _ _ => None;
     screen_size := fun _ => inr (1920, 1080)%Z;
     grab := fun h box =>
       if (count_grabs h =? n)%nat then answer else inr (Some (shot box));
     resample := nearest |}.

(** A world where nothing fails on a grid of up to 100 cells. *)
Definition calm : World := world_with 100 (inl (CollaboratorError "grab")).

(** The calm world, except that every path already exists. *)
Definition occupied : World :=
  {| path_exists := fun _ => true;
     parent_writable := parent_writable calm;
     now := now calm;
     raises := raises calm;
     screen_size := screen_size calm;
     grab := grab calm;
     resample := resample calm |}.

(** A two by two session from (10.0, 20.0), on default settings. *)
Definition session_2x2 (w : World) (outfile : option string)
    : list event * result unit :=
  create_map w 10 20 2 2 1 0 0 0 0 0 outfile [].

(** ** Vocabulary of the further session statements *)

(** Does the validation at the head of [create_map] pass? *)
Definition outfile_ok (w : World) (outfile : option string) : bool :=
  if truthy outfile then
    negb (path_exists w (path_of outfile)) &&
    parent_writable w (path_of outfile) &&
    endswith (upper (path_of outfile)) ".PNG"
  else true.

(** The path [create_map] saves to. *)
Definition out_path (w : World) (outfile : option string) : string :=
  if truthy outfile then path_of outfile
  else ("testimg-" ++ now w ++ ".png")%string.

(** The lengths of the rows of a grid. *)
Definition shape (images : list (list object)) : list nat :=
  map (@List.length object) images.

(** What the events of one grid cell must carry: every sleep the length
    [sleep_time], every capture the box [box]. *)
Definition cell_event (box : bbox) (sleep_time : Q) (e : event) : Prop :=
  match e with
  | Sleep seconds => seconds = sleep_time
  | Grab b _ => b = box
  | _ => True
  end.

(** The grid of [None] and the loop over it, lines 56 to 96 of
    [create_map], as a computation of its own. *)
Definition grid_loop (w : World) (lat_start long_start : Q)
    (number_rows number_cols : Z) (scale sleep_time : Q)
    (offset_left offset_top offset_right offset_bottom : Q)
    (screen_width screen_height : Z) : M (list (list object)) :=
  let images : list (list object) :=
    map (fun _ => map (fun _ => None) (Py.range number_cols))
        (Py.range number_rows) in
  let lat_shift := calc_latitude_shift screen_height
                     (offset_top + offset_bottom) in
  let long_shift := calc_longitude_shift screen_width
                      (offset_left + offset_right) in
  for_each (Py.range number_rows) (fun row images =>
    for_each (Py.range number_cols) (fun col images =>
      (let latitude := lat_start + (lat_shift * Py.float (Z.of_nat row)) in
       let longitude := long_start + (long_shift * Py.float (Z.of_nat col)) in
       let url := maps_url latitude longitude in
       emit (Print url) ;;
       call w (Get url) ;;
       sleep sleep_time ;;
       image <- screenshot w screen_width screen_height
                  offset_left offset_top offset_right offset_bottom ;;
       scaled <- lift (scale_image (resample w) image scale) ;;
       lift (setitem2 images row col (Some scaled)))%py) images) images.

(** The end of [create_map], lines 98 to 106: release, stitch, save. *)
Definition release_and_save (w : World) (outfile : option string)
    (images : list (list object)) : M unit :=
  (call w Close ;;
   call w Quit ;;
   emit Combine ;;
   final <- lift (combine_images images) ;;
   call w (Save (out_path w outfile) final))%py.

(** * Properties *)

(** ** Lists and loops *)

Lemma in_enumerate_from {A : Type} (l : list A) (s i : nat) (a : A) :
  In (i, a) (combine (seq s (List.length l)) l) <->
  (s <= i)%nat /\ nth_error l (i - s) = Some a.
Proof.
  revert s; induction l as [|b l IH]; intros s; simpl.
  - split; [tauto|]. intros [_ H]. destruct (i - s)%nat; discriminate.
  - rewrite IH. split.
    + intros [H|[H1 H2]].
      * inversion H; subst. rewrite Nat.sub_diag. simpl. auto.
      * split; [lia|]. replace (i - s)%nat with (S (i - S s)) by lia. exact H2.
    + intros [H1 H2]. destruct (Nat.eq_dec i s) as [->|Hne].
      * rewrite Nat.sub_diag in H2. simpl in H2. left. congruence.
      * right. split; [lia|].
        replace (i - s)%nat with (S (i - S s)) in H2 by lia. exact H2.
Qed.

Lemma in_enumerate {A : Type} (l : list A) (i : nat) (a : A) :
  In (i, a) (enumerate l) <-> nth_error l i = Some a.
Proof.
  unfold enumerate. rewrite in_enumerate_from, Nat.sub_0_r.
  split; [tauto|]. split; [lia|assumption].
Qed.

Lemma find_app {A : Type} (p : A -> bool) (l1 l2 : list A) :
  find p (l1 ++ l2) = match find p l1 with
                      | Some a => Some a
                      | None => find p l2
                      end.
Proof.
  induction l1 as [|a l1 IH]; simpl; [reflexivity|].
  destruct (p a); auto.
Qed.

Lemma find_unique {A : Type} (p : A -> bool) (l : list A) (a : A) :
  In a l -> p a = true ->
  (forall b, In b l -> p b = true -> b = a) ->
  find p l = Some a.
Proof.
  intros Hin Hp Huniq.
  destruct (find p l) as [b|] eqn:Hf.
  - apply find_some in Hf. destruct Hf as [Hb Hpb].
    f_equal. auto.
  - pose proof (find_none _ _ Hf _ Hin). congruence.
Qed.

(** ** Stitching *)

Lemma paste_image (canvas im : Image) (loc : N * N) :
  paste canvas (Some im) loc = inr (paste_at canvas (im, loc)).
Proof. reflexivity. Qed.

Lemma width_fold_paste (ps : list (Image * (N * N))) (canvas : Image) :
  width (fold_left paste_at ps canvas) = width canvas /\
  height (fold_left paste_at ps canvas) = height canvas.
Proof.
  revert canvas; induction ps as [|p ps IH]; intros canvas; simpl; auto.
  destruct (IH (paste_at canvas p)); auto.
Qed.

(** After a sequence of pastes, a pixel shows the last tile pasted over
    it, or the canvas. *)
Lemma getpixel_fold_paste (ps : list (Image * (N * N))) (canvas : Image) (x y : N) :
  getpixel (fold_left paste_at ps canvas) x y =
  pixel_of (rev ps) (getpixel canvas x y) x y.
Proof.
  revert canvas; induction ps as [|[im loc] ps IH]; intros canvas; simpl.
  - reflexivity.
  - rewrite IH. unfold pixel_of. rewrite find_app. simpl.
    destruct (find _ (rev ps)) as [[im' loc']|]; [reflexivity|].
    destruct (covers im loc x y); reflexivity.
Qed.

(** The inner loop of [combine_images] on a row of images. *)
Lemma paste_row (imgwidth y0 : N) (row : list Image) (s : nat) (canvas : Image) :
  for_each (combine (seq s (List.length (map (@Some Image) row)))
                    (map (@Some Image) row))
    (fun '(colindex, image) newimage =>
       paste newimage image (N.of_nat colindex * imgwidth, y0)%N) canvas =
  inr (fold_left paste_at
         (map (fun '(colindex, image) =>
                 (image, (N.of_nat colindex * imgwidth, y0)%N))
              (combine (seq s (List.length row)) row)) canvas).
Proof.
  revert s canvas; induction row as [|im row IH]; intros s canvas; simpl.
  - reflexivity.
  - apply IH.
Qed.

(** The outer loop of [combine_images] on a grid of images. *)
Lemma paste_rows (imgwidth imgheight : N) (tiles : list (list Image))
    (s : nat) (canvas : Image) :
  for_each (combine (seq s (List.length (grid tiles))) (grid tiles))
    (fun '(rowindex, row) newimage =>
       for_each (enumerate row) (fun '(colindex, image) newimage =>
         paste newimage image
           (N.of_nat colindex * imgwidth, N.of_nat rowindex * imgheight)%N)
         newimage) canvas =
  inr (fold_left paste_at
         (flat_map (fun '(rowindex, row) =>
            map (fun '(colindex, image) =>
              (image, (N.of_nat colindex * imgwidth,
                       N.of_nat rowindex * imgheight)%N))
              (enumerate row))
            (combine (seq s (List.length tiles)) tiles)) canvas).
Proof.
  revert s canvas; induction tiles as [|row tiles IH]; intros s canvas.
  - reflexivity.
  - cbn [grid map List.length seq combine for_each flat_map].
    unfold enumerate at 1. rewrite paste_row.
    cbn [bind result_monad]. rewrite fold_left_app.
    apply IH.
Qed.

(** [combine_images] on a grid of images, in closed form. *)
Lemma combine_images_grid (tiles : list (list Image)) :
  combine_images (grid tiles) =
  match tiles with
  | (tile0 :: _) as row0 :: _ =>
      inr (fold_left paste_at
             (placements (width tile0) (height tile0) tiles)
             (Image_new (width tile0 * N.of_nat (List.length row0),
                         height tile0 * N.of_nat (List.length tiles))%N))
  | _ => inl IndexError
  end.
Proof.
  destruct tiles as [|[|tile0 row0] tiles]; try reflexivity.
  unfold combine_images.
  cbn [grid map getitem nth_error bind result_monad attr].
  change (map (map (@Some Image)) tiles) with (grid tiles).
  change ((Some tile0 :: map (@Some Image) row0) :: grid tiles)
    with (grid ((tile0 :: row0) :: tiles)).
  unfold enumerate at 1. rewrite paste_rows.
  unfold placements, enumerate. cbn [grid map List.length].
  rewrite !length_map. reflexivity.
Qed.

Lemma in_placements (imgwidth imgheight : N) (tiles : list (list Image))
    (im : Image) (loc : N * N) :
  In (im, loc) (placements imgwidth imgheight tiles) <->
  exists r c row,
    nth_error tiles r = Some row /\ nth_error row c = Some im /\
    loc = (N.of_nat c * imgwidth, N.of_nat r * imgheight)%N.
Proof.
  unfold placements. rewrite in_flat_map. split.
  - intros [[r row] [Hr Hin]]. apply in_enumerate in Hr.
    apply in_map_iff in Hin. destruct Hin as [[c im'] [Heq Hc]].
    apply in_enumerate in Hc. inversion Heq; subst.
    exists r, c, row. auto.
  - intros (r & c & row & Hr & Hc & ->).
    exists (r, row). split; [apply in_enumerate; exact Hr|].
    apply in_map_iff. exists (c, im). split; [reflexivity|].
    apply in_enumerate; exact Hc.
Qed.

Lemma uniform_nth (w h : N) (tiles : list (list Image)) (r c : nat)
    (row : list Image) (im : Image) :
  uniform w h tiles ->
  nth_error tiles r = Some row -> nth_error row c = Some im ->
  width im = w /\ height im = h.
Proof.
  intros Hu Hr Hc. unfold uniform in Hu. rewrite Forall_forall in Hu.
  specialize (Hu row (nth_error_In _ _ Hr)). rewrite Forall_forall in Hu.
  exact (Hu im (nth_error_In _ _ Hc)).
Qed.

Lemma rectangular_nth (rows cols : nat) (tiles : list (list Image))
    (r c : nat) :
  rectangular rows cols tiles -> (r < rows)%nat -> (c < cols)%nat ->
  exists row im, nth_error tiles r = Some row /\ nth_error row c = Some im.
Proof.
  intros [Hlen Hrows] Hr Hc.
  destruct (nth_error tiles r) as [row|] eqn:Er.
  - rewrite Forall_forall in Hrows.
    pose proof (Hrows row (nth_error_In _ _ Er)) as Hl.
    destruct (nth_error row c) as [im|] eqn:Ec.
    + exists row, im. auto.
    + apply nth_error_None in Ec. lia.
  - apply nth_error_None in Er. lia.
Qed.

(** In a uniform grid the tile of cell [(r, c)] is the only one pasted
    over the pixels of its own cell. *)
Lemma uniform_pixel (w h : N) (tiles : list (list Image)) (r c : nat)
    (row : list Image) (im : Image) (bg : pixel) (x y : N) :
  uniform w h tiles ->
  nth_error tiles r = Some row -> nth_error row c = Some im ->
  (x < w)%N -> (y < h)%N ->
  pixel_of (rev (placements w h tiles)) bg
    (N.of_nat c * w + x)%N (N.of_nat r * h + y)%N = getpixel im x y.
Proof.
  intros Hu Hr Hc Hx Hy.
  destruct (uniform_nth _ _ Hu Hr Hc) as [Hw Hh].
  unfold pixel_of.
  rewrite (@find_unique _ _ _ (im, (N.of_nat c * w, N.of_nat r * h)%N)).
  - cbn [fst snd]. f_equal; lia.
  - apply in_rev. rewrite rev_involutive. apply in_placements.
    exists r, c, row. auto.
  - unfold covers. cbn [fst snd]. rewrite Hw, Hh.
    repeat (apply andb_true_intro; split);
      first [apply N.leb_le | apply N.ltb_lt]; lia.
  - intros [im' loc'] Hin Hcov. apply in_rev in Hin.
    apply in_placements in Hin.
    destruct Hin as (r' & c' & row' & Hr' & Hc' & ->).
    destruct (uniform_nth _ _ Hu Hr' Hc') as [Hw' Hh'].
    unfold covers in Hcov. cbn [fst snd] in Hcov. rewrite Hw', Hh' in Hcov.
    repeat (apply andb_prop in Hcov; destruct Hcov as [Hcov ?]).
    repeat match goal with
           | H : (_ <=? _)%N = true |- _ => apply N.leb_le in H
           | H : (_ <? _)%N = true |- _ => apply N.ltb_lt in H
           end.
    assert (c' = c) by nia. assert (r' = r) by nia. subst.
    congruence.
Qed.

(** C6. On a grid of [rows] by [cols] tiles that all have the size [w] by
    [h], [combine_images] returns an image of size [cols * w] by
    [rows * h]; the pixels of the tile at [(r, c)] appear unchanged from
    offset [(c * w, r * h)] on, and every pixel of the result is the
    pixel of exactly the tile of its cell: no overlap, no gap, no
    rescaling. *)
Theorem combine_images_uniform (tiles : list (list Image))
    (rows cols : nat) (w h : N) :
  (1 <= rows)%nat -> (1 <= cols)%nat ->
  rectangular rows cols tiles -> uniform w h tiles ->
  exists final,
    combine_images (grid tiles) = inr final /\
    width final = (N.of_nat cols * w)%N /\
    height final = (N.of_nat rows * h)%N /\
    (forall r c row im x y,
        nth_error tiles r = Some row -> nth_error row c = Some im ->
        (x < w)%N -> (y < h)%N ->
        getpixel final (N.of_nat c * w + x)%N (N.of_nat r * h + y)%N =
        getpixel im x y) /\
    (forall x y,
        (x < N.of_nat cols * w)%N -> (y < N.of_nat rows * h)%N ->
        exists row im,
          nth_error tiles (N.to_nat (y / h)) = Some row /\
          nth_error row (N.to_nat (x / w)) = Some im /\
          getpixel final x y = getpixel im (x mod w)%N (y mod h)%N).
Proof.
  intros Hrows Hcols Hrect Hu.
  destruct (@rectangular_nth rows cols tiles 0 0 Hrect) as (row0 & tile0 & Hr0 & Hc0);
    try lia.
  destruct (uniform_nth _ _ Hu Hr0 Hc0) as [Hw0 Hh0].
  pose proof (combine_images_grid tiles) as Hclosed.
  destruct tiles as [|[|t0 r0] tiles']; cbn [nth_error] in Hr0;
    try discriminate; injection Hr0 as <-; cbn [nth_error] in Hc0;
    try discriminate; injection Hc0 as <-.
  rewrite Hw0, Hh0 in Hclosed.
  destruct Hrect as [Hlen Hall].
  assert (Hl0 : List.length (t0 :: r0) = cols)
    by (inversion Hall; assumption).
  rewrite Hl0, Hlen in Hclosed.
  set (tiles := (t0 :: r0) :: tiles') in *.
  assert (Hpix : forall r c row im x y,
             nth_error tiles r = Some row -> nth_error row c = Some im ->
             (x < w)%N -> (y < h)%N ->
             getpixel (fold_left paste_at (placements w h tiles)
                         (Image_new (w * N.of_nat cols, h * N.of_nat rows)%N))
               (N.of_nat c * w + x)%N (N.of_nat r * h + y)%N =
             getpixel im x y).
  { intros r c row im x y Hr Hc Hx Hy.
    rewrite getpixel_fold_paste. eapply uniform_pixel; eauto. }
  eexists. split; [exact Hclosed|].
  destruct (width_fold_paste (placements w h tiles)
              (Image_new (w * N.of_nat cols, h * N.of_nat rows)%N)) as [Hw Hh].
  split; [rewrite Hw; cbn; lia|].
  split; [rewrite Hh; cbn; lia|].
  split; [exact Hpix|].
  intros x y Hx Hy.
  assert (Hwpos : (0 < w)%N) by (destruct w; [lia|reflexivity]).
  assert (Hhpos : (0 < h)%N) by (destruct h; [lia|reflexivity]).
  assert (Hc : (N.to_nat (x / w) < cols)%nat).
  { assert (x / w < N.of_nat cols)%N
      by (apply N.Div0.div_lt_upper_bound; lia). lia. }
  assert (Hr : (N.to_nat (y / h) < rows)%nat).
  { assert (y / h < N.of_nat rows)%N
      by (apply N.Div0.div_lt_upper_bound; lia). lia. }
  destruct (@rectangular_nth rows cols tiles _ _ (conj Hlen Hall) Hr Hc)
    as (row & im & Er & Ec).
  exists row, im. split; [exact Er|]. split; [exact Ec|].
  rewrite <- (Hpix _ _ _ _ (x mod w)%N (y mod h)%N Er Ec);
    try (apply N.mod_lt; lia).
  rewrite !N2Nat.id. f_equal.
  - rewrite (N.div_mod x w) at 1 by lia. lia.
  - rewrite (N.div_mod y h) at 1 by lia. lia.
Qed.

Lemma combine_images_uniform_witness :
  exists final,
    combine_images (grid tiles_2x3) = inr final /\
    width final = 300%N /\ height final = 100%N /\
    getpixel final 0 0 = red /\
    getpixel final 200 50 = white /\
    getpixel final 299 99 = white.
Proof.
  destruct (@combine_images_uniform tiles_2x3 2 3 100 50)
    as (final & Hfinal & Hw & Hh & Hpix & _).
  - lia.
  - lia.
  - split; [reflexivity|]. repeat constructor.
  - repeat constructor.
  - exists final. split; [exact Hfinal|].
    split; [exact Hw|]. split; [exact Hh|].
    split; [|split].
    + exact (Hpix 0%nat 0%nat _ _ 0%N 0%N eq_refl eq_refl eq_refl eq_refl).
    + exact (Hpix 1%nat 2%nat _ _ 0%N 0%N eq_refl eq_refl eq_refl eq_refl).
    + exact (Hpix 1%nat 2%nat _ _ 99%N 49%N eq_refl eq_refl eq_refl eq_refl).
Defined.

(** C10. [combine_images] checks no size.  On every rectangular grid with
    a first tile it returns an image whose size comes from the first
    tile and the shape of the grid alone, every tile is pasted at the
    offset computed from the first tile's size, and a pixel of the result
    shows the last tile pasted over it (tiles larger than the first
    overlap their neighbours) or stays black (tiles smaller than the
    first leave gaps). *)
Theorem combine_images_unchecked (tiles : list (list Image))
    (rows cols : nat) (row0 : list Image) (tile0 : Image) :
  rectangular rows cols tiles ->
  nth_error tiles 0 = Some row0 -> nth_error row0 0 = Some tile0 ->
  exists final,
    combine_images (grid tiles) = inr final /\
    width final = (width tile0 * N.of_nat cols)%N /\
    height final = (height tile0 * N.of_nat rows)%N /\
    forall x y,
      getpixel final x y =
      pixel_of (rev (placements (width tile0) (height tile0) tiles)) black x y.
Proof.
  intros [Hlen Hall] Hr0 Hc0.
  pose proof (combine_images_grid tiles) as Hclosed.
  destruct tiles as [|[|t0 r0] tiles']; cbn [nth_error] in Hr0;
    try discriminate; injection Hr0 as <-; cbn [nth_error] in Hc0;
    try discriminate; injection Hc0 as <-.
  assert (Hl0 : List.length (t0 :: r0) = cols)
    by (inversion Hall; assumption).
  rewrite Hl0, Hlen in Hclosed.
  eexists. split; [exact Hclosed|].
  match goal with
  | |- context [fold_left paste_at ?ps ?cv] =>
      destruct (width_fold_paste ps cv) as [Hw Hh]
  end.
  split; [rewrite Hw; reflexivity|].
  split; [rewrite Hh; reflexivity|].
  intros x y. rewrite getpixel_fold_paste. reflexivity.
Qed.

Lemma combine_images_unchecked_witness :
  exists final,
    combine_images (grid tiles_mixed) = inr final /\
    width final = 300%N /\ height final = 50%N /\
    getpixel final 120 10 = green /\
    getpixel final 210 10 = blue /\
    getpixel final 245 10 = green /\
    getpixel final 260 30 = black.
Proof.
  destruct (@combine_images_unchecked tiles_mixed 1 3
              [solid 100 50 red; solid 150 50 green; solid 40 20 blue]
              (solid 100 50 red))
    as (final & Hfinal & Hw & Hh & Hpix).
  - split; [reflexivity|]. repeat constructor.
  - reflexivity.
  - reflexivity.
  - exists final. split; [exact Hfinal|].
    split; [exact Hw|]. split; [exact Hh|].
    rewrite !Hpix. repeat split.
Defined.

(** C1, as the code has it.  A grid in which some tile differs in size
    from the first tile is not rejected: [combine_images] raises nothing
    and returns the composed image, sized from the first tile. *)
Theorem combine_images_accepts_mismatch (tiles : list (list Image))
    (row0 : list Image) (tile0 : Image) :
  nth_error tiles 0 = Some row0 -> nth_error row0 0 = Some tile0 ->
  mismatched (width tile0) (height tile0) tiles = true ->
  exists final,
    combine_images (grid tiles) = inr final /\
    width final = (width tile0 * N.of_nat (List.length row0))%N /\
    height final = (height tile0 * N.of_nat (List.length tiles))%N.
Proof.
  intros Hr0 Hc0 _.
  pose proof (combine_images_grid tiles) as Hclosed.
  destruct tiles as [|[|t0 r0] tiles']; cbn [nth_error] in Hr0;
    try discriminate; injection Hr0 as <-; cbn [nth_error] in Hc0;
    try discriminate; injection Hc0 as <-.
  eexists. split; [exact Hclosed|].
  match goal with
  | |- context [fold_left paste_at ?ps ?cv] =>
      destruct (width_fold_paste ps cv) as [Hw Hh]
  end.
  split; [rewrite Hw|rewrite Hh]; reflexivity.
Qed.

Lemma combine_images_accepts_mismatch_witness :
  exists final,
    combine_images (grid tiles_mixed) = inr final /\
    width final = 300%N /\ height final = 50%N.
Proof.
  exact (@combine_images_accepts_mismatch tiles_mixed _ _
           eq_refl eq_refl eq_refl).
Defined.

(** The grid [tiles_mixed] holds tiles of sizes other than that of its
    first tile, and [combine_images] fails with no error on it. *)
Lemma combine_images_mismatch_not_rejected :
  mismatched 100 50 tiles_mixed = true /\
  (forall e, combine_images (grid tiles_mixed) <> inl e) /\
  exists final,
    combine_images (grid tiles_mixed) = inr final /\
    width final = 300%N /\ height final = 50%N.
Proof.
  split; [reflexivity|]. split.
  - intros e. rewrite combine_images_grid. discriminate.
  - rewrite combine_images_grid. eexists. split; [reflexivity|].
    split; reflexivity.
Qed.

(** ** Geometry *)

Lemma float_pos (n : Z) : (0 < n)%Z -> 0 < Py.float n.
Proof. intros H. unfold Py.float. rewrite Zlt_Qlt in H. exact H. Qed.

Lemma float_lt (n m : Z) : (n < m)%Z -> Py.float n < Py.float m.
Proof. intros H. unfold Py.float. rewrite Zlt_Qlt in H. exact H. Qed.

Lemma calc_latitude_shift_negative (screen_height : Z) (percent_hidden : Q) :
  (0 < screen_height)%Z -> percent_hidden < 1 ->
  calc_latitude_shift screen_height percent_hidden < 0.
Proof.
  intros Hh Hp. apply float_pos in Hh. unfold calc_latitude_shift.
  set (s := Py.float screen_height) in *.
  assert (0 < s * (1 - percent_hidden)) by nra.
  nra.
Qed.

Lemma calc_latitude_shift_decreasing (h1 h2 : Z) (percent_hidden : Q) :
  (h1 < h2)%Z -> percent_hidden < 1 ->
  calc_latitude_shift h2 percent_hidden < calc_latitude_shift h1 percent_hidden.
Proof.
  intros Hh Hp. apply float_lt in Hh. unfold calc_latitude_shift.
  set (s1 := Py.float h1) in *. set (s2 := Py.float h2) in *.
  assert (0 < (s2 - s1) * (1 - percent_hidden)) by nra.
  nra.
Qed.

Lemma calc_longitude_shift_positive (screen_width : Z) (percent_hidden : Q) :
  (0 < screen_width)%Z -> percent_hidden < 1 ->
  0 < calc_longitude_shift screen_width percent_hidden.
Proof.
  intros Hw Hp. apply float_pos in Hw. unfold calc_longitude_shift.
  set (s := Py.float screen_width) in *.
  assert (0 < s * (1 - percent_hidden)) by nra.
  nra.
Qed.

Lemma calc_longitude_shift_increasing (w1 w2 : Z) (percent_hidden : Q) :
  (w1 < w2)%Z -> percent_hidden < 1 ->
  calc_longitude_shift w1 percent_hidden < calc_longitude_shift w2 percent_hidden.
Proof.
  intros Hw Hp. apply float_lt in Hw. unfold calc_longitude_shift.
  set (s1 := Py.float w1) in *. set (s2 := Py.float w2) in *.
  assert (0 < (s2 - s1) * (1 - percent_hidden)) by nra.
  nra.
Qed.

(** C7. For a hidden fraction in [[0, 1)]: the latitude shift of every
    positive screen height is strictly negative and strictly decreases as
    the screen height grows; the longitude shift of every positive screen
    width is strictly positive and strictly increases as the screen width
    grows. *)
Theorem shifts_signed_and_monotone (percent_hidden : Q) :
  0 <= percent_hidden -> percent_hidden < 1 ->
  (forall h : Z, (0 < h)%Z -> calc_latitude_shift h percent_hidden < 0) /\
  (forall h1 h2 : Z, (0 < h1)%Z -> (h1 < h2)%Z ->
     calc_latitude_shift h2 percent_hidden <
     calc_latitude_shift h1 percent_hidden) /\
  (forall w : Z, (0 < w)%Z -> 0 < calc_longitude_shift w percent_hidden) /\
  (forall w1 w2 : Z, (0 < w1)%Z -> (w1 < w2)%Z ->
     calc_longitude_shift w1 percent_hidden <
     calc_longitude_shift w2 percent_hidden).
Proof.
  intros _ Hp. repeat split; intros.
  - apply calc_latitude_shift_negative; assumption.
  - apply calc_latitude_shift_decreasing; assumption.
  - apply calc_longitude_shift_positive; assumption.
  - apply calc_longitude_shift_increasing; assumption.
Qed.

Lemma shifts_signed_and_monotone_witness :
  calc_latitude_shift 1080 0.2 < 0 /\
  calc_latitude_shift 1440 0.2 < calc_latitude_shift 1080 0.2 /\
  0 < calc_longitude_shift 1920 0.2 /\
  calc_longitude_shift 1920 0.2 < calc_longitude_shift 2560 0.2.
Proof.
  destruct (@shifts_signed_and_monotone 0.2) as (Hneg & Hdec & Hpos & Hinc).
  - discriminate.
  - reflexivity.
  - split; [apply Hneg; reflexivity|].
    split; [apply Hdec; reflexivity|].
    split; [apply Hpos; reflexivity|].
    apply Hinc; reflexivity.
Defined.

(** ** Cropping *)






(** ** Scaling *)


Lemma round_le_int (x : Q) (n : Z) : x <= inject_Z n -> (Py.round x <= n)%Z.
Proof.
  intros H. unfold Py.round.
  pose proof (Qfloor_le x) as Hf.
  assert (Hfn : (Qfloor x <= n)%Z).
  { rewrite <- (Qfloor_Z n). apply Qfloor_resp_le. exact H. }
  assert (Hup : 0 < x - inject_Z (Qfloor x) -> (Qfloor x + 1 <= n)%Z).
  { intros Hpos. assert (Hlt : inject_Z (Qfloor x) < inject_Z n).
    { clear Hfn. set (f := inject_Z (Qfloor x)) in *.
      set (m := inject_Z n) in *. lra. }
    rewrite <- Zlt_Qlt in Hlt. lia. }
  clear Hf H.
  set (d := x - inject_Z (Qfloor x)) in *.
  destruct (Qcompare_spec d (1 # 2)) as [E|E|E].
  - destruct (Z.even (Qfloor x)); [exact Hfn|]. apply Hup. lra.
  - exact Hfn.
  - apply Hup. lra.
Qed.


Lemma truediv_ok (a b : Q) : ~ b == 0 -> truediv a b = inr (a / b).
Proof.
  intros H. unfold truediv.
  destruct (Qeq_bool b 0) eqn:E; [|reflexivity].
  apply Qeq_bool_iff in E. contradiction.
Qed.

Lemma round_aspect_bounds (number : Q) (key : Z -> Q) (n : Z) :
  number <= inject_Z n -> (1 <= n)%Z ->
  (1 <= round_aspect number key <= n)%Z.
Proof.
  intros H Hn. unfold round_aspect, Py.floor, Py.ceil.
  assert (Hlo : (Qfloor number <= n)%Z)
    by (rewrite <- (Qfloor_Z n); apply Qfloor_resp_le; exact H).
  assert (Hhi : (Qceiling number <= n)%Z)
    by (rewrite <- (Qceiling_Z n); apply Qceiling_resp_le; exact H).
  destruct (Qle_bool _ _); lia.
Qed.

Lemma inject_Z_nonzero (n : Z) : (1 <= n)%Z -> ~ inject_Z n == 0.
Proof.
  intros H E. rewrite Zle_Qle in H. change (inject_Z 1) with 1 in H.
  set (q := inject_Z n) in *. lra.
Qed.

Lemma inject_Z_pos (n : Z) : (1 <= n)%Z -> 0 < inject_Z n.
Proof.
  intros H. rewrite Zle_Qle in H. change (inject_Z 1) with 1 in H.
  set (q := inject_Z n) in *. lra.
Qed.

(** The size [thumbnail] aims at fits the requested box, touches one of
    its sides and is at least one pixel each way. *)
Lemma preserve_aspect_ratio_fits (im : Image) (X Y : Z) :
  (1 <= Z.of_N (width im))%Z -> (1 <= Z.of_N (height im))%Z ->
  (1 <= X)%Z -> (1 <= Y)%Z ->
  (preserve_aspect_ratio im (X, Y) = inr None /\
   (Z.of_N (width im) <= X)%Z /\ (Z.of_N (height im) <= Y)%Z) \/
  (exists x y,
     preserve_aspect_ratio im (X, Y) = inr (Some (x, y)) /\
     (1 <= x <= X)%Z /\ (1 <= y <= Y)%Z /\ (x = X \/ y = Y)).
Proof.
  intros Hw Hh HX HY. unfold preserve_aspect_ratio.
  set (w := Z.of_N (width im)) in *. set (h := Z.of_N (height im)) in *.
  destruct ((w <=? X)%Z && (h <=? Y)%Z) eqn:E.
  - left. apply andb_prop in E. destruct E as [E1 E2].
    apply Z.leb_le in E1, E2. auto.
  - right. clear E.
    pose proof (inject_Z_pos Hw) as Pw. pose proof (inject_Z_pos Hh) as Ph.
    pose proof (inject_Z_pos HX) as PX. pose proof (inject_Z_pos HY) as PY.
    rewrite (truediv_ok _ (inject_Z_nonzero Hh)).
    rewrite (truediv_ok _ (inject_Z_nonzero HY)).
    cbn [bind result_monad].
    assert (Ea : inject_Z w / inject_Z h * inject_Z h == inject_Z w)
      by (field; apply inject_Z_nonzero; exact Hh).
    assert (Er : inject_Z Y * (inject_Z X / inject_Z Y) == inject_Z X)
      by (field; apply inject_Z_nonzero; exact HY).
    set (aspect := inject_Z w / inject_Z h) in *.
    set (ratio := inject_Z X / inject_Z Y) in *.
    assert (Pa : 0 < aspect).
    { apply Qnot_le_lt. intros Hle.
      set (wq := inject_Z w) in *. set (hq := inject_Z h) in *. nra. }
    destruct (Qle_bool aspect ratio) eqn:E.
    + apply Qle_bool_iff in E.
      eexists. exists Y. split; [reflexivity|].
      split; [|split; [lia|right; reflexivity]].
      apply round_aspect_bounds; [|exact HX].
      set (Xq := inject_Z X) in *. set (Yq := inject_Z Y) in *. nra.
    + assert (Hlt : ratio < aspect).
      { apply Qnot_le_lt. intros Hle. apply Qle_bool_iff in Hle. congruence. }
      assert (Hna : ~ aspect == 0) by lra.
      rewrite (truediv_ok _ Hna). cbn [bind result_monad].
      exists X. eexists. split; [reflexivity|].
      split; [lia|]. split; [|left; reflexivity].
      apply round_aspect_bounds; [|exact HY].
      apply Qle_shift_div_r; [exact Pa|].
      set (Xq := inject_Z X) in *. set (Yq := inject_Z Y) in *. nra.
Qed.

Section Scaling.

Variable resample : Image -> N -> N -> N -> N -> pixel.

Lemma thumbnail_fits (im : Image) (X Y : Z) :
  (1 <= Z.of_N (width im))%Z -> (1 <= Z.of_N (height im))%Z ->
  (1 <= X)%Z -> (1 <= Y)%Z ->
  exists im',
    thumbnail resample im (X, Y) = inr im' /\
    ((im' = im /\ (Z.of_N (width im) <= X)%Z /\ (Z.of_N (height im) <= Y)%Z) \/
     ((1 <= Z.of_N (width im') <= X)%Z /\
      (1 <= Z.of_N (height im') <= Y)%Z /\
      (Z.of_N (width im') = X \/ Z.of_N (height im') = Y))).
Proof.
  intros Hw Hh HX HY. unfold thumbnail.
  destruct (preserve_aspect_ratio_fits im Hw Hh HX HY)
    as [(-> & Hle)|(x & y & -> & Hx & Hy & Hxy)]; cbn [bind result_monad].
  - exists im. split; [reflexivity|]. left. auto.
  - destruct ((x =? Z.of_N (width im)) && (y =? Z.of_N (height im)))%Z eqn:E.
    + apply andb_prop in E. destruct E as [E1 E2].
      apply Z.eqb_eq in E1, E2. subst x y.
      exists im. split; [reflexivity|]. right. auto.
    + unfold resize.
      destruct ((x <? 1) || (y <? 1))%Z eqn:E';
        [apply orb_prop in E'; destruct E' as [E'|E'];
         apply Z.ltb_lt in E'; lia|].
      eexists. split; [reflexivity|]. right. cbn [width height].
      rewrite !Z2N.id by lia. auto.
Qed.


End Scaling.



(** ** The session *)

Lemma navigations_app (t1 t2 : list event) :
  navigations (t1 ++ t2) = navigations t1 ++ navigations t2.
Proof.
  induction t1 as [|e t1 IH]; [reflexivity|].
  destruct e; simpl; rewrite ?IH; reflexivity.
Qed.

Lemma run_bind {A B : Type} (c : M A) (k : A -> M B) (h : list event) :
  bind c k h =
  match c h with
  | (t, inl e) => (t, inl e)
  | (t, inr a) => let '(t', r) := k a (h ++ t) in (t ++ t', r)
  end.
Proof. reflexivity. Qed.

Lemma run_for_each_cons {A S : Type} (x : A) (l : list A)
    (body : A -> S -> M S) (s : S) (h : list event) :
  for_each (x :: l) body s h =
  match body x s h with
  | (t, inl e) => (t, inl e)
  | (t, inr s') =>
      let '(t', r) := for_each l body s' (h ++ t) in (t ++ t', r)
  end.
Proof. reflexivity. Qed.

Section Loop.

Variables A S : Type.
Variable body : A -> S -> M S.
Variable addresses : A -> list url.

Hypothesis body_ok : forall x s h,
  loop_ok (addresses x) (fst (body x s h)) (snd (body x s h)).

(** A loop whose every round keeps to the discipline of the grid does so
    as a whole. *)
Lemma for_each_ok (l : list A) (s : S) (h : list event) :
  loop_ok (flat_map addresses l)
    (fst (for_each l body s h)) (snd (for_each l body s h)).
Proof.
  revert s h; induction l as [|x l IH]; intros s h.
  - repeat split; cbn; try discriminate; eauto.
  - rewrite run_for_each_cons.
    pose proof (body_ok x s h) as Hx.
    destruct (body x s h) as [t1 [e|s1]]; cbn [fst snd] in *.
    + destruct Hx as (Hg & Hf & Hn & [rest Hp] & Hs).
      repeat split; auto; try discriminate.
      exists (rest ++ flat_map addresses l). cbn [flat_map].
      rewrite Hp, app_assoc. reflexivity.
    + specialize (IH s1 (h ++ t1)).
      destruct (for_each l body s1 (h ++ t1)) as [t2 r2]; cbn [fst snd] in *.
      destruct Hx as (Hg1 & Hf1 & Hn1 & _ & Hs1).
      destruct IH as (Hg2 & Hf2 & Hn2 & [rest Hp2] & Hs2).
      specialize (Hs1 s1 eq_refl).
      repeat split.
      * rewrite forallb_app, Hg1, Hg2. reflexivity.
      * rewrite existsb_app. intros Hn. apply orb_prop in Hn.
        destruct Hn as [Hn|Hn]; [|auto].
        destruct (Hf1 Hn) as [e He]. discriminate.
      * rewrite existsb_app. intros Hn. apply orb_prop in Hn.
        destruct Hn as [Hn|Hn]; [specialize (Hn1 Hn); discriminate|auto].
      * exists rest. cbn [flat_map].
        rewrite navigations_app, Hs1, Hp2, app_assoc. reflexivity.
      * intros s' Hr. cbn [flat_map].
        rewrite navigations_app, Hs1, (Hs2 s' Hr). reflexivity.
Qed.

End Loop.

Lemma flat_map_singleton {A B : Type} (f : A -> B) (l : list A) :
  flat_map (fun x => [f x]) l = map f l.
Proof. induction l as [|x l IH]; cbn; [|rewrite IH]; reflexivity. Qed.

Ltac leaf_ok :=
  unfold loop_ok; cbn;
  repeat split; try discriminate; try reflexivity; eauto;
  try (eexists; reflexivity).

Ltac stopped :=
  cbn; repeat split; try discriminate; eauto; left; repeat split; eauto;
  discriminate.

Ltac released :=
  split; [reflexivity|]; split; [assumption|]; split; [assumption|];
  right; split; [assumption|]; split; [assumption|]; eauto 10.

Lemma in_grid_before_release (t : list event) :
  forallb in_grid t = true -> forallb before_release t = true.
Proof.
  induction t as [|e t IH]; [reflexivity|]. cbn [forallb].
  intros H. apply andb_prop in H. destruct H as [He Ht].
  rewrite (IH Ht). destruct e; try discriminate; reflexivity.
Qed.

Section Run.

Variable w : World.
Variables lat_start long_start : Q.
Variables number_rows number_cols : Z.
Variables scale sleep_time : Q.
Variables offset_left offset_top offset_right offset_bottom : Q.

(** One round of the inner loop of [create_map]. *)
Lemma cell_ok (screen_width screen_height : Z) (row col : nat)
    (images : list (list object)) (h : list event) :
  let lat_shift :=
    calc_latitude_shift screen_height (offset_top + offset_bottom) in
  let long_shift :=
    calc_longitude_shift screen_width (offset_left + offset_right) in
  let round : M (list (list object)) :=
    (let url :=
       cell_url lat_start long_start lat_shift long_shift row col in
     emit (Print url) ;;
     call w (Get url) ;;
     sleep sleep_time ;;
     image <- screenshot w screen_width screen_height
                offset_left offset_top offset_right offset_bottom ;;
     scaled <- lift (scale_image (resample w) image scale) ;;
     lift (setitem2 images row col (Some scaled)))%py in
  loop_ok [cell_url lat_start long_start lat_shift long_shift row col]
    (fst (round h)) (snd (round h)).
Proof.
  intros lat_shift long_shift round. subst round.
  set (url := cell_url lat_start long_start lat_shift long_shift row col).
  unfold call, emit, sleep, screenshot, lift. cbn [bind M_monad app fst snd].
  destruct (raises w (h ++ [Print url]) (Get url)); cbn [app fst snd];
    [leaf_ok|].
  destruct (Qle_bool 0 sleep_time); cbn [app fst snd]; [|leaf_ok].
  destruct (grab w _ _) as [e|[im|]]; cbn [app fst snd]; [leaf_ok| |leaf_ok].
  destruct (scale_image (resample w) (Some im) scale) as [e|scaled];
    cbn [app fst snd]; [leaf_ok|].
  destruct (setitem2 images row col (Some scaled)); leaf_ok.
Qed.

(** The whole grid loop of [create_map]. *)
Lemma grid_ok (screen_width screen_height : Z)
    (images : list (list object)) (h : list event) :
  let lat_shift :=
    calc_latitude_shift screen_height (offset_top + offset_bottom) in
  let long_shift :=
    calc_longitude_shift screen_width (offset_left + offset_right) in
  let loop : M (list (list object)) :=
    for_each (Py.range number_rows) (fun row images =>
      for_each (Py.range number_cols) (fun col images =>
        (let url :=
           cell_url lat_start long_start lat_shift long_shift row col in
         emit (Print url) ;;
         call w (Get url) ;;
         sleep sleep_time ;;
         image <- screenshot w screen_width screen_height
                    offset_left offset_top offset_right offset_bottom ;;
         scaled <- lift (scale_image (resample w) image scale) ;;
         lift (setitem2 images row col (Some scaled)))%py) images) images in
  loop_ok (grid_urls lat_start long_start lat_shift long_shift
             number_rows number_cols)
    (fst (loop h)) (snd (loop h)).
Proof.
  intros lat_shift long_shift loop. subst loop. unfold grid_urls.
  apply for_each_ok with
    (addresses := fun row =>
       map (cell_url lat_start long_start lat_shift long_shift row)
           (Py.range number_cols)).
  intros row images' h'.
  rewrite <- flat_map_singleton.
  apply for_each_ok with
    (addresses := fun col =>
       [cell_url lat_start long_start lat_shift long_shift row col]).
  intros col images'' h''. apply cell_ok.
Qed.

(** Every run of a session, taken apart: what happened before the
    release of the browser, and what from the release on. *)
Lemma create_map_run (outfile : option string)
    (t : list event) (r : result unit) :
  create_map w lat_start long_start number_rows number_cols scale sleep_time
    offset_left offset_top offset_right offset_bottom outfile [] = (t, r) ->
  exists pre tail,
    t = pre ++ tail /\
    forallb before_release pre = true /\
    (forall sw sh,
        screen_size w [Chrome; MaximizeWindow] = inr (sw, sh) ->
        exists rest, session_urls lat_start long_start
          number_rows number_cols
          offset_left offset_top offset_right offset_bottom sw sh = navigations pre ++ rest) /\
    ((tail = [] /\ (exists e, r = inl e) /\
      (existsb grabbed_none pre = true -> r = inl AttributeError)) \/
     (existsb capture_failed pre = false /\
      (exists sw sh,
          screen_size w [Chrome; MaximizeWindow] = inr (sw, sh) /\
          navigations pre = session_urls lat_start long_start
          number_rows number_cols
          offset_left offset_top offset_right offset_bottom sw sh) /\
      ((tail = [Close] /\ exists e, r = inl e) \/
       (tail = [Close; Quit] /\ exists e, r = inl e) \/
       (tail = [Close; Quit; Combine] /\ exists e, r = inl e) \/
       (exists path final,
           tail = [Close; Quit; Combine; Save path final] /\
           (r = inr tt \/ exists e, r = inl e))))).
Proof.
  unfold create_map. rewrite run_bind.
  match goal with
  | |- (let (_, _) := ?v [] in _) = _ -> _ =>
      assert (Hval : v [] = ([], inr tt) \/ v [] = ([], inl AssertionError))
  end.
  { destruct (truthy outfile); [|left; reflexivity].
    unfold assert.
    destruct (negb _); [|right; reflexivity].
    destruct (parent_writable _ _); [|right; reflexivity].
    destruct (endswith _ _); [left|right]; reflexivity. }
  destruct Hval as [-> | ->]; cbn [app];
    [|intros H; injection H as <- <-; exists [], []; stopped].
  rewrite run_bind. unfold call at 1.
  destruct (raises w [] Chrome);
    [intros H; injection H as <- <-; exists [Chrome], []; stopped|].
  cbn [app]. rewrite run_bind. unfold call at 1.
  destruct (raises w [Chrome] MaximizeWindow);
    [intros H; injection H as <- <-; exists [Chrome; MaximizeWindow], [];
     stopped|].
  cbn [app]. rewrite run_bind. unfold get_screen_resolution at 1.
  destruct (screen_size w [Chrome; MaximizeWindow]) as [e|[sw sh]] eqn:Escreen;
    [intros H; injection H as <- <-;
     exists [Chrome; MaximizeWindow; ScreenResolution], []; stopped|].
  cbn [app]. rewrite run_bind.
  match goal with
  | |- context [for_each ?l ?b ?s ?hh] =>
      assert (Hloop : loop_ok (session_urls lat_start long_start
          number_rows number_cols
          offset_left offset_top offset_right offset_bottom sw sh) (fst (for_each l b s hh))
                        (snd (for_each l b s hh)))
        by exact (grid_ok sw sh s hh);
      destruct (for_each l b s hh) as [tl rl]
  end; cbn [fst snd] in Hloop;
    destruct Hloop as (Hgrid & Hfail & Hnone & Hprefix & Hdone).
  set (pre := Chrome :: MaximizeWindow :: ScreenResolution :: tl).
  assert (Hpre : forallb before_release pre = true)
    by (cbn; apply in_grid_before_release; exact Hgrid).
  assert (Hurls : forall sw0 sh0 : Z,
             @inr exn _ (sw, sh) = inr (sw0, sh0) ->
             exists rest, session_urls lat_start long_start
          number_rows number_cols
          offset_left offset_top offset_right offset_bottom sw0 sh0 = navigations pre ++ rest)
    by (intros sw0 sh0 H; injection H as <- <-; exact Hprefix).
  destruct rl as [e|images].
  { intros H; injection H as <- <-. exists pre, [].
    split; [symmetry; apply app_nil_r|]. split; [exact Hpre|].
    split; [exact Hurls|]. left. split; [reflexivity|].
    split; [eauto|]. intros Hn. specialize (Hnone Hn).
    injection Hnone as ->. reflexivity. }
  assert (Hsome : existsb capture_failed pre = false).
  { cbn. destruct (existsb capture_failed tl); [|reflexivity].
    destruct (Hfail eq_refl) as [e He]. discriminate. }
  assert (Hall : exists sw0 sh0 : Z,
             @inr exn _ (sw, sh) = inr (sw0, sh0) /\
             navigations pre = session_urls lat_start long_start
          number_rows number_cols
          offset_left offset_top offset_right offset_bottom sw0 sh0)
    by (exists sw, sh; split; [reflexivity|exact (Hdone images eq_refl)]).
  rewrite run_bind. unfold call at 1.
  destruct (raises w _ Close);
    [intros H; injection H as <- <-; exists pre, [Close]; released|].
  rewrite run_bind. unfold call at 1.
  destruct (raises w _ Quit);
    [intros H; injection H as <- <-; exists pre, [Close; Quit]; released|].
  rewrite run_bind. unfold emit at 1. rewrite run_bind. unfold lift at 1.
  destruct (combine_images images) as [e|final];
    [intros H; injection H as <- <-; exists pre, [Close; Quit; Combine];
     released|].
  unfold call.
  destruct (raises w _ (Save _ final));
    intros H; injection H as <- <-;
    exists pre; eexists; released.
Qed.
End Run.

Lemma forallb_existsb {A : Type} (p q : A -> bool) (l : list A) :
  (forall a, p a = true -> q a = false) ->
  forallb p l = true -> existsb q l = false.
Proof.
  intros Hpq. induction l as [|a l IH]; [reflexivity|]. cbn.
  intros H. apply andb_prop in H. destruct H as [Ha Hl].
  rewrite (Hpq a Ha), (IH Hl). reflexivity.
Qed.

Lemma before_release_no_close (e : event) :
  before_release e = true -> is_close e = false.
Proof. destruct e; try reflexivity; discriminate. Qed.

Lemma before_release_no_quit (e : event) :
  before_release e = true -> is_quit e = false.
Proof. destruct e; try reflexivity; discriminate. Qed.

Lemma before_release_no_combine (e : event) :
  before_release e = true -> is_combine e = false.
Proof. destruct e; try reflexivity; discriminate. Qed.

Lemma before_release_no_save (e : event) :
  before_release e = true -> is_save e = false.
Proof. destruct e; try reflexivity; discriminate. Qed.

Lemma capture_failed_of_none (t : list event) :
  existsb grabbed_none t = true -> existsb capture_failed t = true.
Proof.
  induction t as [|e t IH]; [discriminate|]. cbn. intros H.
  apply orb_prop in H. destruct H as [H|H].
  - destruct e as [| | | | | |box [x|[im|]]| | | |]; try discriminate.
    reflexivity.
  - rewrite (IH H). apply orb_true_r.
Qed.

Lemma length_flat_map_seq {B : Type} (f : nat -> nat -> B) (n c s : nat) :
  List.length (flat_map (fun row => map (f row) (seq 0 c)) (seq s n)) =
  (n * c)%nat.
Proof.
  revert s; induction n as [|n IH]; intros s; [reflexivity|].
  cbn [seq flat_map]. rewrite length_app, length_map, length_seq, IH.
  reflexivity.
Qed.

Lemma nth_error_flat_map_seq {B : Type} (f : nat -> nat -> B)
    (n c s r k : nat) :
  (r < n)%nat -> (k < c)%nat ->
  nth_error (flat_map (fun row => map (f row) (seq 0 c)) (seq s n))
    (r * c + k) = Some (f (s + r)%nat k).
Proof.
  revert s r; induction n as [|n IH]; intros s r Hr Hk; [lia|].
  cbn [seq flat_map]. destruct r as [|r].
  - rewrite nth_error_app1 by (rewrite length_map, length_seq; exact Hk).
    cbn [Nat.mul Nat.add]. rewrite nth_error_map, nth_error_seq.
    destruct (Nat.ltb_spec k c); [|lia].
    cbn. rewrite Nat.add_0_r. reflexivity.
  - rewrite nth_error_app2 by (rewrite length_map, length_seq; lia).
    rewrite length_map, length_seq.
    replace (S r * c + k - c)%nat with (r * c + k)%nat by lia.
    rewrite IH by lia. f_equal. f_equal. lia.
Qed.

Section Claims.

Variable w : World.
Variables lat_start long_start : Q.
Variables number_rows number_cols : Z.
Variables scale sleep_time : Q.
Variables offset_left offset_top offset_right offset_bottom : Q.
Variable outfile : option string.
Variable t : list event.
Variable r : result unit.

Hypothesis Hrun :
  create_map w lat_start long_start number_rows number_cols scale sleep_time
    offset_left offset_top offset_right offset_bottom outfile [] = (t, r).

(** C2, as the code has it.  The browser is released, by [driver.close()]
    then [driver.quit()], on one path only: after the grid loop has run
    to its end, before stitching.  A run that completes normally ends in
    [Close; Quit; Combine; Save] with no release before.  A run in which
    a capture raised or returned [None] ends in an error with the browser
    neither closed nor quit.  A run without [Close] is a failed run
    without [Quit]; and when [Close] is in the trace, everything before
    it is the complete grid: every address visited, no capture failed. *)
Theorem browser_release_paths :
  (r = inr tt ->
   exists pre path final,
     t = pre ++ [Close; Quit; Combine; Save path final] /\
     forallb before_release pre = true) /\
  (existsb capture_failed t = true ->
   (exists e, r = inl e) /\
   existsb is_close t = false /\ existsb is_quit t = false) /\
  (existsb is_close t = false ->
   existsb is_quit t = false /\ exists e, r = inl e) /\
  (existsb is_close t = true ->
   exists pre tail sw sh,
     t = pre ++ Close :: tail /\
     forallb before_release pre = true /\
     existsb capture_failed pre = false /\
     screen_size w [Chrome; MaximizeWindow] = inr (sw, sh) /\
     navigations pre =
     session_urls lat_start long_start number_rows number_cols
       offset_left offset_top offset_right offset_bottom sw sh).
Proof.
  destruct (@create_map_run w lat_start long_start number_rows number_cols
              scale sleep_time offset_left offset_top offset_right
              offset_bottom outfile t r Hrun)
    as (pre & tail & -> & Hpre & _ &
        [(-> & [e ->] & _) |
         (Hok & (sw & sh & Hscreen & Hnav) &
          [(-> & [e ->]) | [(-> & [e ->]) | [(-> & [e ->]) |
           (path & final & -> & Hr)]]])]);
    pose proof (@forallb_existsb _ before_release is_close pre
                  before_release_no_close Hpre) as Hc;
    pose proof (@forallb_existsb _ before_release is_quit pre
                  before_release_no_quit Hpre) as Hq;
    rewrite !existsb_app, ?Hc, ?Hq, ?Hok;
    cbn [existsb is_close is_quit capture_failed orb];
    (split; [|split; [|split]]); intros H; try discriminate H;
    try (split; eauto; fail); try (repeat split; eauto; fail);
    try (exists pre; eauto 12; fail).
Qed.

(** C4, as the code has it.  When a capture returns [None] the session
    fails with the [AttributeError] of [scale_image], an error that
    carries no cell; [combine_images] is never called and nothing is
    saved. *)
Theorem none_capture_aborts :
  existsb grabbed_none t = true ->
  r = inl AttributeError /\
  existsb is_combine t = false /\ existsb is_save t = false.
Proof.
  intros Hnone.
  destruct (@create_map_run w lat_start long_start number_rows number_cols
              scale sleep_time offset_left offset_top offset_right
              offset_bottom outfile t r Hrun)
    as (pre & tail & -> & Hpre & _ & [(-> & _ & Hattr) | (Hok & _ & Htail)]).
  - rewrite app_nil_r in *. split; [exact (Hattr Hnone)|].
    split; apply forallb_existsb with (p := before_release);
      auto using before_release_no_combine, before_release_no_save.
  - exfalso. rewrite existsb_app in Hnone. apply orb_prop in Hnone.
    destruct Hnone as [Hn|Hn].
    + apply capture_failed_of_none in Hn. congruence.
    + destruct Htail as [(-> & _) | [(-> & _) | [(-> & _) |
        (path & final & -> & _)]]]; discriminate Hn.
Qed.

Section Screen.

Variables screen_width screen_height : Z.

Hypothesis Hscreen :
  screen_size w [Chrome; MaximizeWindow] = inr (screen_width, screen_height).

(** C5.  In a session of [number_rows >= 1] by [number_cols >= 1] cells
    whose grid loop runs to its end (the browser gets closed), the
    addresses navigated to are those of all cells in row-major order:
    there are [number_rows * number_cols] of them, and the one of cell
    [(row, col)], at position [row * number_cols + col], has the
    coordinates [(lat_start + lat_shift * row, long_start + long_shift *
    col)].  For two rows and two columns from (10.0, 20.0) they are
    (10, 20), (10, 20 + long_shift), (10 + lat_shift, 20) and
    (10 + lat_shift, 20 + long_shift). *)
Theorem grid_visited_row_major :
  (1 <= number_rows)%Z -> (1 <= number_cols)%Z ->
  existsb is_close t = true ->
  let lat_shift :=
    calc_latitude_shift screen_height (offset_top + offset_bottom) in
  let long_shift :=
    calc_longitude_shift screen_width (offset_left + offset_right) in
  navigations t =
    grid_urls lat_start long_start lat_shift long_shift
      number_rows number_cols /\
  Z.of_nat (List.length (navigations t)) = (number_rows * number_cols)%Z /\
  (forall row col,
      (row < Z.to_nat number_rows)%nat -> (col < Z.to_nat number_cols)%nat ->
      nth_error (navigations t) (row * Z.to_nat number_cols + col) =
      Some (maps_url (lat_start + lat_shift * Py.float (Z.of_nat row))
                     (long_start + long_shift * Py.float (Z.of_nat col)))) /\
  (number_rows = 2%Z -> number_cols = 2%Z ->
   lat_start = 10 -> long_start = 20 ->
   Forall2 url_eq (navigations t)
     [maps_url 10 20; maps_url 10 (20 + long_shift);
      maps_url (10 + lat_shift) 20;
      maps_url (10 + lat_shift) (20 + long_shift)]).
Proof.
  intros Hrows Hcols Hclose lat_shift long_shift.
  assert (Hnav : navigations t =
                 grid_urls lat_start long_start lat_shift long_shift
                   number_rows number_cols).
  { destruct (@create_map_run w lat_start long_start number_rows number_cols
                scale sleep_time offset_left offset_top offset_right
                offset_bottom outfile t r Hrun)
      as (pre & tail & Ht & Hpre & _ &
          [(-> & _) | (_ & (sw & sh & Hsize & Hpre_nav) & Htail)]).
    - rewrite app_nil_r in Ht. subst t.
      rewrite (@forallb_existsb _ before_release is_close pre
                 before_release_no_close Hpre) in Hclose.
      discriminate.
    - rewrite Hscreen in Hsize. injection Hsize as <- <-.
      rewrite Ht, navigations_app, Hpre_nav.
      destruct Htail as [(-> & _) | [(-> & _) | [(-> & _) |
        (path & final & -> & _)]]]; apply app_nil_r. }
  rewrite Hnav. unfold grid_urls, Py.range.
  split; [reflexivity|]. split; [|split].
  - rewrite length_flat_map_seq. lia.
  - intros row col Hrow Hcol.
    rewrite (@nth_error_flat_map_seq _ _ _ _ 0%nat row col Hrow Hcol).
    reflexivity.
  - intros -> -> -> ->. cbn.
    repeat constructor; cbn; unfold Py.float; cbn [Z.of_nat]; ring.
Qed.
End Screen.

(** C9.  A given output path (a non-empty string) is validated before
    anything else is done: if it exists already, or its directory is not
    writable, or it does not end in [.png] whatever the case of the
    letters, the run raises the [AssertionError] of the validation with
    an empty trace: no browser was launched, nothing captured. *)
Theorem invalid_outfile_fails_fast (p : string) (h : list event) :
  p <> EmptyString ->
  path_exists w p = true \/ parent_writable w p = false \/
  endswith (upper p) ".PNG" = false ->
  create_map w lat_start long_start number_rows number_cols scale sleep_time
    offset_left offset_top offset_right offset_bottom (Some p) h =
  ([], inl AssertionError).
Proof.
  intros Hp Hbad. unfold create_map. rewrite run_bind.
  cbn [truthy path_of]. apply String.eqb_neq in Hp. rewrite Hp.
  cbn [negb]. unfold assert.
  destruct (path_exists w p); [reflexivity|].
  destruct (parent_writable w p);
    [|reflexivity].
  destruct (endswith (upper p) ".PNG"); [|reflexivity].
  destruct Hbad as [H|[H|H]]; discriminate H.
Qed.

End Claims.

Lemma invalid_outfile_fails_fast_witness :
  session_2x2 occupied (Some "map.png"%string) = ([], inl AssertionError) /\
  session_2x2 calm (Some "map.jpg"%string) = ([], inl AssertionError).
Proof.
  split; unfold session_2x2.
  - apply invalid_outfile_fails_fast; [discriminate|left; reflexivity].
  - apply invalid_outfile_fails_fast;
      [discriminate|right; right; reflexivity].
Defined.

Lemma browser_release_paths_witness :
  exists pre path final,
    fst (session_2x2 calm None) =
      pre ++ [Close; Quit; Combine; Save path final] /\
    forallb before_release pre = true.
Proof.
  destruct (@browser_release_paths calm 10 20 2 2 1 0 0 0 0 0 None
              (fst (session_2x2 calm None)) (snd (session_2x2 calm None))
              (surjective_pairing _)) as (Hdone & _).
  apply Hdone. vm_compute. reflexivity.
Defined.

(** A capture that raises at the second cell: the browser was launched,
    the run ends in that error, and the browser is neither closed nor
    quit. *)
Lemma browser_left_open :
  let run := session_2x2 (world_with 1 (inl (CollaboratorError "grab"))) None in
  snd run = inl (CollaboratorError "grab") /\
  existsb is_chrome (fst run) = true /\
  existsb is_close (fst run) = false /\
  existsb is_quit (fst run) = false.
Proof. vm_compute. repeat split. Qed.

Lemma none_capture_aborts_witness :
  let run := session_2x2 (world_with 1 (inr None)) None in
  snd run = inl AttributeError /\
  existsb is_combine (fst run) = false /\ existsb is_save (fst run) = false.
Proof.
  apply (@none_capture_aborts (world_with 1 (inr None))
           10 20 2 2 1 0 0 0 0 0 None _ _ (surjective_pairing _)).
  vm_compute. reflexivity.
Defined.

(** The error of a run whose capture returned [None] is the same
    whichever cell failed: no function of the error gives the cell. *)
Lemma none_capture_error_names_no_cell :
  ~ exists report : exn -> nat * nat,
      forall n, (n < 4)%nat ->
        exists e,
          snd (session_2x2 (world_with n (inr None)) None) = inl e /\
          report e = (n / 2, n mod 2)%nat.
Proof.
  intros [report H].
  destruct (H 0%nat) as (e0 & H0 & R0); [lia|].
  destruct (H 1%nat) as (e1 & H1 & R1); [lia|].
  vm_compute in H0, H1.
  injection H0 as <-. injection H1 as <-.
  rewrite R0 in R1. discriminate R1.
Qed.

(** A capture that returns an empty image is not noticed: the run
    completes and saves a stitched image. *)
Lemma empty_capture_not_noticed :
  let run := session_2x2 (world_with 1 (inr (Some (solid 0 0 black)))) None in
  snd run = inr tt /\ existsb is_save (fst run) = true.
Proof. vm_compute. split; reflexivity. Qed.

Lemma grid_visited_row_major_witness :
  let lat_shift := calc_latitude_shift 1080 (0 + 0) in
  let long_shift := calc_longitude_shift 1920 (0 + 0) in
  Forall2 url_eq (navigations (fst (session_2x2 calm None)))
    [maps_url 10 20; maps_url 10 (20 + long_shift);
     maps_url (10 + lat_shift) 20;
     maps_url (10 + lat_shift) (20 + long_shift)].
Proof.
  destruct (@grid_visited_row_major calm 10 20 2 2 1 0 0 0 0 0 None
              (fst (session_2x2 calm None)) (snd (session_2x2 calm None))
              (surjective_pairing _) 1920 1080 eq_refl)
    as (_ & _ & _ & Hexample).
  - discriminate.
  - discriminate.
  - vm_compute. reflexivity.
  - apply Hexample; reflexivity.
Defined.

(** ** Sample values in binary64 *)

(** The box that is empty in the rational model is empty in binary64. *)
#[warnings="-inexact-float"]
Lemma binary64_bbox_not_strict :
  Binary64.screenshot_bbox 1920 1080 0.5 0.5 0.4999 0.4999 =
  (Some 960, Some 540, Some 960, Some 540)%Z.
Proof. vm_compute. reflexivity. Qed.

#[warnings="-inexact-float"]
Lemma binary64_bbox_sample :
  Binary64.screenshot_bbox 1920 1080 0.1 0.2 0.1 0 =
  (Some 192, Some 216, Some 1728, Some 1080)%Z.
Proof. vm_compute. reflexivity. Qed.

(** Signs and order of the shifts at sample screens. *)
#[warnings="-inexact-float"]
Lemma binary64_shifts_sample :
  (Binary64.calc_latitude_shift 1080 0.2 <? 0)%float = true /\
  (Binary64.calc_latitude_shift 1440 0.2
     <? Binary64.calc_latitude_shift 1080 0.2)%float = true /\
  (0 <? Binary64.calc_longitude_shift 1920 0.2)%float = true /\
  (Binary64.calc_longitude_shift 1920 0.2
     <? Binary64.calc_longitude_shift 2560 0.2)%float = true.
Proof. vm_compute. repeat split. Qed.

(** * Further properties *)

(** ** More on stitching *)

(** A row that is pasted without error holds images only. *)
Lemma pasted_row_is_images (loc : nat -> N * N) (row : list object)
    (s : nat) (canvas final : Image) :
  for_each (combine (seq s (List.length row)) row)
    (fun '(colindex, image) newimage =>
       paste newimage image (loc colindex)) canvas = inr final ->
  exists ims, row = map (@Some Image) ims.
Proof.
  revert s canvas; induction row as [|[im|] row IH]; intros s canvas H.
  - exists []. reflexivity.
  - cbn [List.length seq combine for_each] in H.
    cbn [paste bind result_monad] in H.
    destruct (IH _ _ H) as [ims ->]. exists (im :: ims). reflexivity.
  - discriminate H.
Qed.

(** A grid that is pasted without error holds images only. *)
Lemma pasted_rows_are_images (loc : nat -> nat -> N * N)
    (images : list (list object)) (s : nat) (canvas final : Image) :
  for_each (combine (seq s (List.length images)) images)
    (fun '(rowindex, row) newimage =>
       for_each (enumerate row) (fun '(colindex, image) newimage =>
         paste newimage image (loc rowindex colindex)) newimage) canvas
  = inr final ->
  exists tiles, images = grid tiles.
Proof.
  revert s canvas; induction images as [|row images IH]; intros s canvas H.
  - exists []. reflexivity.
  - cbn [List.length seq combine for_each] in H.
    cbn [bind result_monad] in H.
    destruct (for_each (enumerate row) _ canvas) as [e|canvas'] eqn:Erow;
      [discriminate H|].
    apply (@pasted_row_is_images (loc s)) in Erow. destruct Erow as [ims ->].
    destruct (IH _ _ H) as [tiles ->].
    exists (ims :: tiles). reflexivity.
Qed.

(** Where [combine_images] returns, the grid has a first tile and holds
    images only. *)
Lemma combine_images_inr (images : list (list object)) (final : Image) :
  combine_images images = inr final ->
  exists tile0 row0 rest, images = grid ((tile0 :: row0) :: rest).
Proof.
  intros H.
  destruct images as [|[|[tile0|] row0] rest]; try discriminate H.
  unfold combine_images in H.
  cbn [getitem nth_error bind result_monad attr] in H.
  unfold enumerate at 1 in H.
  apply (@pasted_rows_are_images
           (fun r c => (N.of_nat c * width tile0,
                        N.of_nat r * height tile0)%N)) in H.
  destruct H as [tiles Htiles].
  destruct tiles as [|[|t0 r0] tiles']; try discriminate Htiles.
  exists t0, r0, tiles'. exact Htiles.
Qed.

(** X1.  [combine_images] returns an image exactly on the grids that have a
    first cell and hold an image in every cell.  On an empty grid or an
    empty first row it raises [IndexError], on a first cell that is
    [None] it raises [AttributeError]. *)
Theorem combine_images_succeeds_iff (images : list (list object)) :
  ((exists final, combine_images images = inr final) <->
   (exists tiles row0 tile0,
      images = grid tiles /\
      nth_error tiles 0 = Some row0 /\ nth_error row0 0 = Some tile0)) /\
  (images = [] -> combine_images images = inl IndexError) /\
  (forall rest, images = [] :: rest ->
     combine_images images = inl IndexError) /\
  (forall row rest, images = (None :: row) :: rest ->
     combine_images images = inl AttributeError).
Proof.
  split; [|repeat split; intros; subst; reflexivity].
  split.
  - intros [final H]. apply combine_images_inr in H.
    destruct H as (tile0 & row0 & rest & ->).
    exists ((tile0 :: row0) :: rest), (tile0 :: row0), tile0. auto.
  - intros (tiles & row0 & tile0 & -> & Hr & Hc).
    rewrite combine_images_grid.
    destruct tiles as [|[|t0 r0] tiles']; cbn [nth_error] in Hr;
      try discriminate Hr; injection Hr as <-; cbn [nth_error] in Hc;
      try discriminate Hc.
    eexists. reflexivity.
Qed.

(** The size of what [combine_images] returns. *)
Lemma combine_images_size (tile0 : Image) (row0 : list Image)
    (rest : list (list Image)) (final : Image) :
  combine_images (grid ((tile0 :: row0) :: rest)) = inr final ->
  width final = (width tile0 * N.of_nat (List.length (tile0 :: row0)))%N /\
  height final =
    (height tile0 * N.of_nat (List.length ((tile0 :: row0) :: rest)))%N.
Proof.
  rewrite combine_images_grid. intros H.
  match type of H with
  | inr (fold_left paste_at ?ps ?cv) = _ =>
      destruct (width_fold_paste ps cv) as [Hw Hh];
      assert (E : final = fold_left paste_at ps cv) by congruence
  end.
  rewrite E, Hw, Hh. split; reflexivity.
Qed.

(** ** More on cropping *)

(** X2.  With all offsets at their default 0 the box of [screenshot] is the
    whole screen, whatever its size. *)
Theorem screenshot_bbox_default (W H : Z) :
  screenshot_bbox W H 0 0 0 0 = (0, 0, W, H)%Z.
Proof.
  unfold screenshot_bbox, Py.float, Py.int. cbn.
  rewrite !Z.mul_1_r, !Z.quot_1_r. reflexivity.
Qed.




(** ** More on the shifts *)



(** ** More on the grid of addresses *)





(** ** More on scaling *)

Lemma round_ge_int (x : Q) (n : Z) : inject_Z n <= x -> (n <= Py.round x)%Z.
Proof.
  intros H. unfold Py.round.
  assert (Hf : (n <= Qfloor x)%Z)
    by (rewrite <- (Qfloor_Z n); apply Qfloor_resp_le; exact H).
  destruct (Qcompare _ _); [destruct (Z.even _)| |]; lia.
Qed.

Lemma dimension_nonneg (n : N) : 0 <= Py.float (Z.of_N n).
Proof.
  unfold Py.float. change 0 with (inject_Z 0). rewrite <- Zle_Qle. lia.
Qed.

Lemma round_covers (n : N) (scale : Q) :
  1 <= scale -> (Z.of_N n <= Py.round (Py.float (Z.of_N n) * scale))%Z.
Proof.
  intros Hs. apply round_ge_int. pose proof (dimension_nonneg n) as Hn.
  unfold Py.float in *. set (q := inject_Z (Z.of_N n)) in *. nra.
Qed.

Section MoreScaling.

Variable resample : Image -> N -> N -> N -> N -> pixel.

(** X6.  A factor of 1 or more never enlarges: [scale_image] gives the image
    back as it is. *)
Theorem scale_image_no_enlarging (im : Image) (scale : Q) :
  1 <= scale -> scale_image resample (Some im) scale = inr im.
Proof.
  intros Hs. unfold scale_image. cbn [attr bind result_monad].
  unfold thumbnail, preserve_aspect_ratio.
  rewrite (proj2 (Z.leb_le _ _) (round_covers (width im) Hs)).
  rewrite (proj2 (Z.leb_le _ _) (round_covers (height im) Hs)).
  reflexivity.
Qed.

Lemma zero_height_fails (im : Image) (scale : Q) :
  (1 <= Z.of_N (height im))%Z ->
  Py.round (Py.float (Z.of_N (height im)) * scale) = 0%Z ->
  scale_image resample (Some im) scale = inl ZeroDivisionError.
Proof.
  intros Hh HY. unfold scale_image. cbn [attr bind result_monad].
  rewrite HY. unfold thumbnail, preserve_aspect_ratio.
  destruct (Z.of_N (height im) <=? 0)%Z eqn:E;
    [apply Z.leb_le in E; lia|].
  rewrite andb_false_r.
  rewrite (truediv_ok _ (inject_Z_nonzero Hh)).
  reflexivity.
Qed.

Lemma zero_width_fails (im : Image) (scale : Q) :
  (1 <= Z.of_N (width im))%Z -> (1 <= Z.of_N (height im))%Z ->
  Py.round (Py.float (Z.of_N (width im)) * scale) = 0%Z ->
  Py.round (Py.float (Z.of_N (height im)) * scale) <> 0%Z ->
  scale_image resample (Some im) scale = inl ValueError.
Proof.
  intros Hw Hh HX HY0.
  unfold scale_image. cbn [attr bind result_monad].
  rewrite HX.
  set (Y := Py.round (Py.float (Z.of_N (height im)) * scale)) in *.
  unfold thumbnail, preserve_aspect_ratio.
  destruct (Z.of_N (width im) <=? 0)%Z eqn:E;
    [apply Z.leb_le in E; lia|].
  cbn [andb].
  rewrite (truediv_ok _ (inject_Z_nonzero Hh)).
  assert (HYq : ~ inject_Z Y == 0).
  { intros EY. change 0 with (inject_Z 0) in EY.
    apply HY0. exact (proj1 (inject_Z_injective _ _) EY). }
  rewrite (truediv_ok _ HYq). cbn [bind result_monad].
  pose proof (inject_Z_pos Hw) as Pw. pose proof (inject_Z_pos Hh) as Ph.
  assert (Ea : inject_Z (Z.of_N (width im)) / inject_Z (Z.of_N (height im))
               * inject_Z (Z.of_N (height im)) == inject_Z (Z.of_N (width im)))
    by (field; apply inject_Z_nonzero; exact Hh).
  set (aspect := inject_Z (Z.of_N (width im)) / inject_Z (Z.of_N (height im)))
    in *.
  assert (Pa : 0 < aspect).
  { apply Qnot_le_lt. intros Hle.
    set (wq := inject_Z (Z.of_N (width im))) in *.
    set (hq := inject_Z (Z.of_N (height im))) in *. nra. }
  assert (Er : inject_Z 0 / inject_Z Y == 0) by (field; exact HYq).
  destruct (Qle_bool aspect (inject_Z 0 / inject_Z Y)) eqn:Ele.
  { apply Qle_bool_iff in Ele. rewrite Er in Ele. lra. }
  assert (Hna : ~ aspect == 0) by (intros E0; rewrite E0 in Pa; discriminate).
  rewrite (truediv_ok _ Hna). cbn [bind result_monad].
  cbn [ret result_monad].
  rewrite (proj2 (Z.eqb_neq 0 (Z.of_N (width im)))) by lia.
  reflexivity.
Qed.

(** X7.  A factor so small that a target rounds to 0 makes [scale_image] fail
    on an image of at least one pixel each way: with [ZeroDivisionError]
    when the target height is 0, with some error when the target width
    is. *)
Theorem scale_image_zero_target (im : Image) (scale : Q) :
  (1 <= Z.of_N (width im))%Z -> (1 <= Z.of_N (height im))%Z ->
  (Py.round (Py.float (Z.of_N (height im)) * scale) = 0%Z ->
   scale_image resample (Some im) scale = inl ZeroDivisionError) /\
  (Py.round (Py.float (Z.of_N (width im)) * scale) = 0%Z ->
   exists e, scale_image resample (Some im) scale = inl e).
Proof.
  intros Hw Hh. split.
  - intros HY. apply zero_height_fails; assumption.
  - intros HX.
    destruct (Z.eq_dec (Py.round (Py.float (Z.of_N (height im)) * scale)) 0)
      as [HY|HY].
    + exists ZeroDivisionError. apply zero_height_fails; assumption.
    + exists ValueError. apply zero_width_fails; assumption.
Qed.

(** X8.  On an image of at least one pixel each way and for a positive
    factor, [scale_image] never returns a larger image. *)
Theorem scale_image_never_larger (im scaled : Image) (scale : Q) :
  (1 <= Z.of_N (width im))%Z -> (1 <= Z.of_N (height im))%Z ->
  0 < scale ->
  scale_image resample (Some im) scale = inr scaled ->
  (width scaled <= width im)%N /\ (height scaled <= height im)%N.
Proof.
  intros Hw Hh Hpos Hrun.
  destruct (Qlt_le_dec 1 scale) as [Hbig|Hsmall].
  - assert (H1 : 1 <= scale) by lra.
    unfold scale_image in Hrun. cbn [attr bind result_monad] in Hrun.
    unfold thumbnail, preserve_aspect_ratio in Hrun.
    rewrite (proj2 (Z.leb_le _ _) (round_covers (width im) H1)) in Hrun.
    rewrite (proj2 (Z.leb_le _ _) (round_covers (height im) H1)) in Hrun.
    injection Hrun as <-. split; lia.
  - set (X := Py.round (Py.float (Z.of_N (width im)) * scale)) in *.
    set (Y := Py.round (Py.float (Z.of_N (height im)) * scale)) in *.
    assert (HXw : (0 <= X <= Z.of_N (width im))%Z).
    { pose proof (inject_Z_pos Hw) as Pw. unfold X, Py.float.
      set (q := inject_Z (Z.of_N (width im))) in *.
      split; [apply round_ge_int; change (inject_Z 0) with 0; nra|].
      apply round_le_int. fold q. nra. }
    assert (HYh : (0 <= Y <= Z.of_N (height im))%Z).
    { pose proof (inject_Z_pos Hh) as Ph. unfold Y, Py.float.
      set (q := inject_Z (Z.of_N (height im))) in *.
      split; [apply round_ge_int; change (inject_Z 0) with 0; nra|].
      apply round_le_int. fold q. nra. }
    destruct (Z.eq_dec Y 0) as [HY0|HY0].
    { rewrite (zero_height_fails im scale Hh HY0) in Hrun. discriminate. }
    destruct (Z.eq_dec X 0) as [HX0|HX0].
    { rewrite (zero_width_fails im scale Hw Hh HX0 HY0) in Hrun.
      discriminate. }
    unfold scale_image in Hrun. cbn [attr bind result_monad] in Hrun.
    fold X Y in Hrun.
    destruct (@thumbnail_fits resample im X Y Hw Hh) as (im' & Him' & Hfit);
      try lia.
    rewrite Him' in Hrun. injection Hrun as <-.
    destruct Hfit as [(-> & _)|(Hx & Hy & _)]; lia.
Qed.

End MoreScaling.

Lemma scale_image_zero_target_witness :
  scale_image nearest (Some (solid 4 3 red)) 0.1 = inl ZeroDivisionError.
Proof.
  destruct (@scale_image_zero_target nearest (solid 4 3 red) 0.1)
    as [HY _]; [discriminate|discriminate|].
  apply HY. reflexivity.
Defined.


Lemma scale_image_never_larger_witness :
  exists scaled,
    scale_image nearest (Some (solid 5 100 red)) 0.5 = inr scaled /\
    (width scaled <= 5)%N /\ (height scaled <= 100)%N.
Proof.
  eexists. split; [vm_compute; reflexivity|].
  apply (@scale_image_never_larger nearest (solid 5 100 red) _ 0.5);
    try discriminate; reflexivity.
Defined.

Lemma scale_image_no_enlarging_witness :
  scale_image nearest (Some (solid 800 600 red)) 1.5
  = inr (solid 800 600 red).
Proof.
  apply scale_image_no_enlarging. discriminate.
Defined.

(** ** The extension check *)

Local Open Scope string_scope.








Local Close Scope string_scope.

(** ** The phases of a session *)

(** [create_map] is its validation, the acquisition of browser and
    screen, the grid loop and the release with stitching and saving, in
    this order. *)
Lemma create_map_phases (w : World) (lat_start long_start : Q)
    (number_rows number_cols : Z) (scale sleep_time : Q)
    (offset_left offset_top offset_right offset_bottom : Q)
    (outfile : option string) :
  create_map w lat_start long_start number_rows number_cols scale sleep_time
    offset_left offset_top offset_right offset_bottom outfile =
  ((if truthy outfile then
      assert (negb (path_exists w (path_of outfile))) ;;
      assert (parent_writable w (path_of outfile)) ;;
      assert (endswith (upper (path_of outfile)) ".PNG")
    else ret tt) ;;
   call w Chrome ;;
   call w MaximizeWindow ;;
   '(screen_width, screen_height) <- get_screen_resolution w ;;
   images <- grid_loop w lat_start long_start number_rows number_cols
               scale sleep_time offset_left offset_top offset_right
               offset_bottom screen_width screen_height ;;
   release_and_save w outfile images)%py.
Proof. reflexivity. Qed.

Lemma setitem_length {A : Type} (l l' : list A) (i : nat) (v : A) :
  setitem l i v = inr l' -> List.length l' = List.length l.
Proof.
  revert i l'; induction l as [|a l IH]; intros i l' H; [discriminate H|].
  destruct i as [|i]; cbn in H.
  - injection H as <-. reflexivity.
  - destruct (setitem l i v) as [e|l''] eqn:E; [discriminate H|].
    injection H as <-. cbn. rewrite (IH _ _ E). reflexivity.
Qed.

Lemma setitem_map {A B : Type} (f : A -> B) (l l' : list A) (i : nat)
    (a v : A) :
  setitem l i v = inr l' -> nth_error l i = Some a -> f v = f a ->
  map f l' = map f l.
Proof.
  revert i l'; induction l as [|b l IH]; intros i l' H Hn Hf;
    [discriminate H|].
  destruct i as [|i]; cbn in H, Hn.
  - injection H as <-. injection Hn as ->. cbn. rewrite Hf. reflexivity.
  - destruct (setitem l i v) as [e|l''] eqn:E; [discriminate H|].
    injection H as <-. cbn. rewrite (IH _ _ E Hn Hf). reflexivity.
Qed.

(** [images[row][col] = v] keeps the lengths of all rows. *)
Lemma setitem2_shape (images images' : list (list object))
    (row col : nat) (v : object) :
  setitem2 images row col v = inr images' -> shape images' = shape images.
Proof.
  unfold setitem2, getitem. cbn [bind result_monad].
  destruct (nth_error images row) as [r|] eqn:Er; [|discriminate].
  destruct (setitem r col v) as [e|r'] eqn:Ec; [discriminate|].
  intros H. unfold shape.
  apply (@setitem_map _ _ (@List.length object) images images' row r r' H Er).
  apply (@setitem_length _ r r' col v Ec).
Qed.

Section LoopInvariant.

Variables A S : Type.
Variable body : A -> S -> M S.
Variable Inv : S -> Prop.
Variable P : event -> Prop.

Hypothesis body_inv : forall x s h,
  Inv s ->
  Forall P (fst (body x s h)) /\
  (forall s', snd (body x s h) = inr s' -> Inv s').

(** A loop keeps what every round keeps. *)
Lemma for_each_inv (l : list A) (s : S) (h : list event) :
  Inv s ->
  Forall P (fst (for_each l body s h)) /\
  (forall s', snd (for_each l body s h) = inr s' -> Inv s').
Proof.
  revert s h; induction l as [|x l IH]; intros s h Hs.
  - split; [constructor|]. cbn. intros s' H. injection H as <-. exact Hs.
  - rewrite run_for_each_cons.
    destruct (@body_inv x s h Hs) as [HP Hnext].
    destruct (body x s h) as [t1 [e|s1]]; cbn [fst snd] in *.
    + split; [exact HP|discriminate].
    + destruct (IH s1 (h ++ t1) (Hnext s1 eq_refl)) as [HP2 Hnext2].
      destruct (for_each l body s1 (h ++ t1)) as [t2 r2]; cbn [fst snd] in *.
      split; [apply Forall_app; auto|exact Hnext2].
Qed.

End LoopInvariant.

Section LoopFailing.

Variables A S : Type.
Variable body : A -> S -> M S.

Hypothesis body_fails : forall x s h, exists e, snd (body x s h) = inl e.

(** A loop whose every round fails, fails as soon as it has a round. *)
Lemma for_each_fails (l : list A) (s : S) (h : list event) :
  l <> [] -> exists e, snd (for_each l body s h) = inl e.
Proof.
  destruct l as [|x l]; [congruence|]. intros _.
  rewrite run_for_each_cons.
  destruct (body_fails x s h) as [e He].
  destruct (body x s h) as [t1 r1]; cbn [snd] in He. subst r1.
  exists e. reflexivity.
Qed.

End LoopFailing.

Lemma for_each_skip {A S : Type} (body : A -> S -> M S) (l : list A)
    (s : S) (h : list event) :
  (forall x s h, body x s h = ([], inr s)) ->
  for_each l body s h = ([], inr s).
Proof.
  intros Hskip. revert h; induction l as [|x l IH]; intros h; [reflexivity|].
  rewrite run_for_each_cons, Hskip, IH. reflexivity.
Qed.

Lemma range_empty (n : Z) : (n <= 0)%Z -> Py.range n = [].
Proof.
  intros H. unfold Py.range. replace (Z.to_nat n) with 0%nat by lia.
  reflexivity.
Qed.

Lemma range_nonempty (n : Z) : (1 <= n)%Z -> Py.range n <> [].
Proof.
  intros H. unfold Py.range.
  destruct (Z.to_nat n) eqn:E; [lia|]. discriminate.
Qed.

Lemma shape_of_nones (rows cols : list nat) :
  shape (map (fun _ => map (fun _ => @None Image) cols) rows) =
  repeat (List.length cols) (List.length rows).
Proof.
  unfold shape. induction rows as [|x rows IH]; [reflexivity|].
  cbn. rewrite length_map, IH. reflexivity.
Qed.

Section Phases.

Variable w : World.
Variables lat_start long_start : Q.
Variables number_rows number_cols : Z.
Variables scale sleep_time : Q.
Variables offset_left offset_top offset_right offset_bottom : Q.
Variables screen_width screen_height : Z.

(** The grid loop keeps to the list of addresses of the session. *)
Lemma grid_loop_ok (h : list event) :
  loop_ok (session_urls lat_start long_start number_rows number_cols
             offset_left offset_top offset_right offset_bottom
             screen_width screen_height)
    (fst (grid_loop w lat_start long_start number_rows number_cols
            scale sleep_time offset_left offset_top offset_right
            offset_bottom screen_width screen_height h))
    (snd (grid_loop w lat_start long_start number_rows number_cols
            scale sleep_time offset_left offset_top offset_right
            offset_bottom screen_width screen_height h)).
Proof.
  exact (@grid_ok w lat_start long_start number_rows number_cols scale
           sleep_time offset_left offset_top offset_right offset_bottom
           screen_width screen_height _ h).
Qed.

(** Every sleep of the grid loop lasts [sleep_time], every capture takes
    the box of the screen and the offsets; a loop that succeeds leaves a
    grid of [number_rows] rows of [number_cols] cells. *)
Lemma grid_loop_discipline (h : list event) :
  Forall (cell_event
            (screenshot_bbox screen_width screen_height
               offset_left offset_top offset_right offset_bottom)
            sleep_time)
    (fst (grid_loop w lat_start long_start number_rows number_cols
            scale sleep_time offset_left offset_top offset_right
            offset_bottom screen_width screen_height h)) /\
  (forall images,
      snd (grid_loop w lat_start long_start number_rows number_cols
             scale sleep_time offset_left offset_top offset_right
             offset_bottom screen_width screen_height h) = inr images ->
      shape images =
      repeat (Z.to_nat number_cols) (Z.to_nat number_rows)).
Proof.
  unfold grid_loop. cbv zeta.
  set (init := map _ (Py.range number_rows)).
  assert (Hinit : shape init =
                  repeat (Z.to_nat number_cols) (Z.to_nat number_rows)).
  { unfold init. rewrite shape_of_nones. unfold Py.range.
    rewrite !length_seq. reflexivity. }
  rewrite <- Hinit.
  apply for_each_inv with (Inv := fun s => shape s = shape init);
    [|reflexivity].
  intros row images h' Hrow.
  apply for_each_inv with (Inv := fun s => shape s = shape init);
    [|exact Hrow].
  intros col images' h'' Hcol.
  unfold call, emit, sleep, screenshot, lift.
  cbn [bind M_monad app fst snd].
  destruct (raises w _ (Get _)); cbn [app fst snd];
    [split; [repeat constructor|discriminate]|].
  destruct (Qle_bool 0 sleep_time); cbn [app fst snd];
    [|split; [repeat constructor|discriminate]].
  destruct (grab w _ _) as [e|image]; cbn [app fst snd];
    [split; [repeat constructor|discriminate]|].
  destruct (scale_image (resample w) image scale) as [e|scaled];
    cbn [app fst snd]; [split; [repeat constructor|discriminate]|].
  split; [repeat constructor|].
  intros s' Hs'. rewrite (setitem2_shape _ _ _ _ Hs'). exact Hcol.
Qed.

(** Without rows or without columns the grid loop does nothing. *)
Lemma grid_loop_empty (h : list event) :
  (number_rows <= 0)%Z \/ (number_cols <= 0)%Z ->
  exists images,
    grid_loop w lat_start long_start number_rows number_cols
      scale sleep_time offset_left offset_top offset_right
      offset_bottom screen_width screen_height h = ([], inr images) /\
    combine_images images = inl IndexError.
Proof.
  intros [Hr|Hc]; unfold grid_loop; cbv zeta.
  - rewrite (range_empty Hr). exists []. split; reflexivity.
  - rewrite (range_empty Hc). cbn [map].
    eexists. split.
    + apply for_each_skip. intros; reflexivity.
    + destruct (Py.range number_rows); reflexivity.
Qed.

(** With a negative [sleep_time] no round of the grid loop gets to its
    capture, and a loop with a cell to visit fails. *)
Lemma grid_loop_negative_sleep (h : list event) :
  sleep_time < 0 ->
  Forall (fun e => is_grab e = false)
    (fst (grid_loop w lat_start long_start number_rows number_cols
            scale sleep_time offset_left offset_top offset_right
            offset_bottom screen_width screen_height h)) /\
  ((1 <= number_rows)%Z -> (1 <= number_cols)%Z ->
   exists e,
     snd (grid_loop w lat_start long_start number_rows number_cols
            scale sleep_time offset_left offset_top offset_right
            offset_bottom screen_width screen_height h) = inl e).
Proof.
  intros Hneg.
  assert (Hle : Qle_bool 0 sleep_time = false).
  { destruct (Qle_bool 0 sleep_time) eqn:E; [|reflexivity].
    apply Qle_bool_iff in E. lra. }
  unfold grid_loop. cbv zeta. split.
  - apply for_each_inv with (Inv := fun _ => True); [|exact I].
    intros row images h' _.
    apply for_each_inv with (Inv := fun _ => True); [|exact I].
    intros col images' h'' _.
    unfold call, emit, sleep, screenshot, lift.
    cbn [bind M_monad app fst snd]. rewrite Hle.
    destruct (raises w _ (Get _)); cbn [app fst snd];
      (split; [repeat constructor|discriminate]).
  - intros Hrows Hcols.
    apply for_each_fails; [|apply range_nonempty; exact Hrows].
    intros row images h'.
    apply for_each_fails; [|apply range_nonempty; exact Hcols].
    intros col images' h''.
    unfold call, emit, sleep, screenshot, lift.
    cbn [bind M_monad app fst snd]. rewrite Hle.
    destruct (raises w _ (Get _)); cbn [app fst snd]; eexists; reflexivity.
Qed.

End Phases.

(** The four ways the end of a session can go. *)
Lemma release_and_save_cases (w : World) (outfile : option string)
    (images : list (list object)) (h tail : list event) (r : result unit) :
  release_and_save w outfile images h = (tail, r) ->
  (tail = [Close] /\ exists e, r = inl e) \/
  (tail = [Close; Quit] /\ exists e, r = inl e) \/
  (tail = [Close; Quit; Combine] /\
   exists e, combine_images images = inl e /\ r = inl e) \/
  (exists final,
      combine_images images = inr final /\
      tail = [Close; Quit; Combine; Save (out_path w outfile) final] /\
      (r = inr tt \/ exists e, r = inl e)).
Proof.
  unfold release_and_save, call, emit, lift.
  cbn [bind M_monad app fst snd].
  destruct (raises w h Close);
    [intros H; injection H as <- <-; left; eauto|].
  destruct (raises w (h ++ [Close]) Quit); cbn [app];
    [intros H; injection H as <- <-; right; left; eauto|].
  destruct (combine_images images) as [e|final]; cbn [app];
    [intros H; injection H as <- <-; right; right; left; eauto|].
  destruct (raises w _ (Save _ final));
    intros H; injection H as <- <-; right; right; right;
    exists final; eauto 6.
Qed.

Section Anatomy.

Variable w : World.
Variables lat_start long_start : Q.
Variables number_rows number_cols : Z.
Variables scale sleep_time : Q.
Variables offset_left offset_top offset_right offset_bottom : Q.
Variable outfile : option string.
Variable t : list event.
Variable r : result unit.

Hypothesis Hrun :
  create_map w lat_start long_start number_rows number_cols scale sleep_time
    offset_left offset_top offset_right offset_bottom outfile [] = (t, r).

(** Every run of a session, phase by phase. *)
Lemma create_map_anatomy :
  (outfile_ok w outfile = false /\ t = [] /\ r = inl AssertionError) \/
  (outfile_ok w outfile = true /\
   ((exists e, r = inl e /\ (t = [Chrome] \/ t = [Chrome; MaximizeWindow])) \/
    (exists e,
        screen_size w [Chrome; MaximizeWindow] = inl e /\ r = inl e /\
        t = [Chrome; MaximizeWindow; ScreenResolution]) \/
    (exists sw sh tl rl,
        screen_size w [Chrome; MaximizeWindow] = inr (sw, sh) /\
        grid_loop w lat_start long_start number_rows number_cols
          scale sleep_time offset_left offset_top offset_right
          offset_bottom sw sh [Chrome; MaximizeWindow; ScreenResolution]
        = (tl, rl) /\
        ((exists e,
             rl = inl e /\ r = inl e /\
             t = [Chrome; MaximizeWindow; ScreenResolution] ++ tl) \/
         (exists images tail,
             rl = inr images /\
             release_and_save w outfile images
               ([Chrome; MaximizeWindow; ScreenResolution] ++ tl) = (tail, r) /\
             t = [Chrome; MaximizeWindow; ScreenResolution] ++ tl ++ tail))))).
Proof.
  revert Hrun. rewrite create_map_phases, run_bind.
  match goal with
  | |- (let (_, _) := ?v [] in _) = _ -> _ =>
      assert (Hval : (outfile_ok w outfile = true /\ v [] = ([], inr tt)) \/
                     (outfile_ok w outfile = false /\
                      v [] = ([], inl AssertionError)))
  end.
  { unfold outfile_ok. destruct (truthy outfile); [|left; auto].
    unfold assert.
    destruct (negb _); [|right; auto].
    destruct (parent_writable _ _); [|right; auto].
    destruct (endswith _ _); [left|right]; auto. }
  destruct Hval as [[Hok ->] | [Hbad ->]]; cbn [app];
    [|intros H; injection H as <- <-; left; auto].
  intros H. right. split; [exact Hok|]. revert H.
  rewrite run_bind. unfold call at 1.
  destruct (raises w [] Chrome);
    [intros H; injection H as <- <-; left; eauto|].
  cbn [app]. rewrite run_bind. unfold call at 1.
  destruct (raises w [Chrome] MaximizeWindow);
    [intros H; injection H as <- <-; left; eauto|].
  cbn [app]. rewrite run_bind. unfold get_screen_resolution at 1.
  destruct (screen_size w [Chrome; MaximizeWindow]) as [e|[sw sh]];
    [intros H; injection H as <- <-; right; left; eauto|].
  cbn [app]. rewrite run_bind.
  destruct (grid_loop _ _ _ _ _ _ _ _ _ _ _ _ _ _) as [tl [e|images]] eqn:El.
  - intros H; injection H as <- <-. right. right.
    exists sw, sh, tl, (inl e). split; [reflexivity|]. split; [exact El|].
    left. eauto.
  - destruct (release_and_save w outfile images _) as [tail r'] eqn:Et.
    intros H; injection H as <- <-. right. right.
    exists sw, sh, tl, (inr images). split; [reflexivity|].
    split; [exact El|]. right. exists images, tail. auto.
Qed.

End Anatomy.

(** ** More on the session *)

Lemma Forall_no_grab (t : list event) :
  Forall (fun e => is_grab e = false) t -> existsb is_grab t = false.
Proof.
  induction 1 as [|e t He _ IH]; [reflexivity|]. cbn. rewrite He, IH.
  reflexivity.
Qed.

Lemma in_grid_no_chrome (e : event) : in_grid e = true -> is_chrome e = false.
Proof. destruct e; try reflexivity; discriminate. Qed.

Lemma shape_rectangular (tiles : list (list Image)) (rows cols : nat) :
  shape (grid tiles) = repeat cols rows -> rectangular rows cols tiles.
Proof.
  unfold shape, grid, rectangular. rewrite map_map. intros H. split.
  - apply (f_equal (@List.length nat)) in H.
    rewrite length_map, repeat_length in H. exact H.
  - apply Forall_forall. intros row Hrow.
    assert (Hin : In (List.length (map (@Some Image) row)) (repeat cols rows))
      by (rewrite <- H;
          apply (in_map (fun x => List.length (map (@Some Image) x)));
          exact Hrow).
    apply repeat_spec in Hin. rewrite length_map in Hin. exact Hin.
Qed.

Section MoreClaims.

Variable w : World.
Variables lat_start long_start : Q.
Variables number_rows number_cols : Z.
Variables scale sleep_time : Q.
Variables offset_left offset_top offset_right offset_bottom : Q.
Variable outfile : option string.
Variable t : list event.
Variable r : result unit.

Hypothesis Hrun :
  create_map w lat_start long_start number_rows number_cols scale sleep_time
    offset_left offset_top offset_right offset_bottom outfile [] = (t, r).

Ltac anatomy :=
  destruct (@create_map_anatomy w lat_start long_start number_rows
              number_cols scale sleep_time offset_left offset_top
              offset_right offset_bottom outfile t r Hrun)
    as [(Hbad & -> & ->) |
        (Hok & [(e & -> & [-> | ->]) |
                [(e & Hscr & -> & ->) |
                 (sw & sh & tl & rl & Hscr & Hloop &
                  [(e & -> & -> & ->) |
                   (images & tail & -> & Hend & ->)])]])].

(** X10.  The browser is launched exactly in the runs whose validation
    passes, and then the launch, the maximizing of the window and the
    query of the screen are the first effects, in this order. *)
Theorem browser_launched_first :
  (existsb is_chrome t = true <-> outfile_ok w outfile = true) /\
  (outfile_ok w outfile = true ->
   t = [Chrome] \/ t = [Chrome; MaximizeWindow] \/
   exists t', t = Chrome :: MaximizeWindow :: ScreenResolution :: t').
Proof.
  anatomy; cbn [existsb is_chrome orb app];
    (split;
     [split;
      [intros H; first [exact Hok | discriminate H]
      |intros H; first [reflexivity | congruence]]
     |intros H; first [congruence | eauto 6]]).
Qed.

(** X11.  A session without rows or without columns navigates nowhere and
    captures nothing; it never saves a file and always ends in an error,
    which is the [IndexError] of [combine_images] on the empty grid when
    the run gets as far as stitching. *)
Theorem empty_grid_session :
  (number_rows <= 0)%Z \/ (number_cols <= 0)%Z ->
  navigations t = [] /\
  existsb is_grab t = false /\
  existsb is_save t = false /\
  (exists e, r = inl e) /\
  (existsb is_combine t = true -> r = inl IndexError).
Proof.
  intros Hempty.
  anatomy; try (cbn; repeat split; eauto; discriminate).
  - destruct (@grid_loop_empty w lat_start long_start number_rows
                number_cols scale sleep_time offset_left offset_top
                offset_right offset_bottom sw sh
                [Chrome; MaximizeWindow; ScreenResolution] Hempty)
      as (images & Heq & _).
    rewrite Heq in Hloop. discriminate Hloop.
  - destruct (@grid_loop_empty w lat_start long_start number_rows
                number_cols scale sleep_time offset_left offset_top
                offset_right offset_bottom sw sh
                [Chrome; MaximizeWindow; ScreenResolution] Hempty)
      as (images' & Heq & Hindex).
    rewrite Heq in Hloop. injection Hloop as <- <-.
    destruct (release_and_save_cases _ _ _ _ Hend)
      as [(-> & [e ->]) | [(-> & [e ->]) | [(-> & e & He & ->) |
          (final & He & _)]]];
      try (cbn; repeat split; eauto; discriminate).
    + rewrite Hindex in He. injection He as <-.
      cbn. repeat split; eauto.
    + rewrite Hindex in He. discriminate He.
Qed.

(** X12.  The only file a session writes is the stitched grid, as its last
    effect.  A run that completes normally has saved; and when a save is
    in the trace, it is the last event, after the release of the browser
    and the call of [combine_images]; its path is the given output path,
    or [testimg-<timestamp>.png] when none is given; its image is the
    stitching of [number_rows] rows of [number_cols] tiles, of the size
    of the first tile times the shape of the grid. *)
Theorem saved_image :
  (r = inr tt -> existsb is_save t = true) /\
  (existsb is_save t = true ->
   exists pre tiles tile0 row0 rest final,
     t = pre ++ [Close; Quit; Combine; Save (out_path w outfile) final] /\
     forallb before_release pre = true /\
     tiles = (tile0 :: row0) :: rest /\
     rectangular (Z.to_nat number_rows) (Z.to_nat number_cols) tiles /\
     combine_images (grid tiles) = inr final /\
     width final = (width tile0 * N.of_nat (Z.to_nat number_cols))%N /\
     height final = (height tile0 * N.of_nat (Z.to_nat number_rows))%N).
Proof.
  anatomy; try (split; intros H; discriminate H).
  - pose proof (@grid_loop_ok w lat_start long_start number_rows number_cols
                  scale sleep_time offset_left offset_top offset_right
                  offset_bottom sw sh
                  [Chrome; MaximizeWindow; ScreenResolution]) as Hgrid.
    rewrite Hloop in Hgrid. cbn [fst snd] in Hgrid.
    destruct Hgrid as (Hgrid & _).
    split; [discriminate|]. cbn. intros H.
    rewrite (@forallb_existsb _ before_release is_save tl
               before_release_no_save
               (in_grid_before_release _ Hgrid)) in H.
    discriminate H.
  - pose proof (@grid_loop_ok w lat_start long_start number_rows number_cols
                  scale sleep_time offset_left offset_top offset_right
                  offset_bottom sw sh
                  [Chrome; MaximizeWindow; ScreenResolution]) as Hgrid.
    pose proof (@grid_loop_discipline w lat_start long_start number_rows
                  number_cols scale sleep_time offset_left offset_top
                  offset_right offset_bottom sw sh
                  [Chrome; MaximizeWindow; ScreenResolution]) as Hdisc.
    rewrite Hloop in Hgrid, Hdisc. cbn [fst snd] in Hgrid, Hdisc.
    destruct Hgrid as (Hgrid & _). destruct Hdisc as (_ & Hshape).
    specialize (Hshape images eq_refl).
    pose proof (in_grid_before_release _ Hgrid) as Hpre.
    pose proof (@forallb_existsb _ before_release is_save tl
                  before_release_no_save Hpre) as Hnosave.
    destruct (release_and_save_cases _ _ _ _ Hend)
      as [(-> & [e ->]) | [(-> & [e ->]) | [(-> & e & He & ->) |
          (final & He & -> & Hr)]]];
      try (split; [discriminate|];
           cbn; rewrite existsb_app, Hnosave; cbn; intros H; discriminate H).
    split.
    + intros _. cbn. rewrite !existsb_app, Hnosave. reflexivity.
    + intros _.
      destruct (combine_images_inr _ He) as (tile0 & row0 & rest & Himages).
      subst images.
      exists ([Chrome; MaximizeWindow; ScreenResolution] ++ tl),
        ((tile0 :: row0) :: rest), tile0, row0, rest, final.
      split; [rewrite <- app_assoc; reflexivity|].
      split; [cbn; exact Hpre|]. split; [reflexivity|].
      pose proof (@shape_rectangular ((tile0 :: row0) :: rest) _ _ Hshape)
        as Hrect.
      split; [exact Hrect|]. split; [exact He|].
      destruct (combine_images_size _ _ _ He) as [Hw Hh].
      destruct Hrect as [Hlen Hall].
      assert (Hl0 : List.length (tile0 :: row0) = Z.to_nat number_cols)
        by (inversion Hall; assumption).
      rewrite Hl0 in Hw. rewrite Hlen in Hh. split; assumption.
Qed.

(** X13.  In every run each sleep lasts [sleep_time] and each capture takes
    the same box, the one [screenshot] computes from the screen size and
    the four offsets. *)
Theorem captures_share_box (screen_width screen_height : Z) :
  screen_size w [Chrome; MaximizeWindow] = inr (screen_width, screen_height) ->
  Forall (cell_event
            (screenshot_bbox screen_width screen_height
               offset_left offset_top offset_right offset_bottom)
            sleep_time) t.
Proof.
  intros Hscreen. anatomy; try (repeat constructor; fail);
    rewrite Hscreen in Hscr; injection Hscr as <- <-;
    pose proof (@grid_loop_discipline w lat_start long_start number_rows
                  number_cols scale sleep_time offset_left offset_top
                  offset_right offset_bottom screen_width screen_height
                  [Chrome; MaximizeWindow; ScreenResolution]) as Hdisc;
    rewrite Hloop in Hdisc; cbn [fst snd] in Hdisc;
    destruct Hdisc as (Hdisc & _).
  - cbn [app]. repeat (constructor; [exact I|]). exact Hdisc.
  - cbn [app]. repeat (constructor; [exact I|]).
    apply Forall_app. split; [exact Hdisc|].
    destruct (release_and_save_cases _ _ _ _ Hend)
      as [(-> & _) | [(-> & _) | [(-> & _) | (final & _ & -> & _)]]];
      repeat constructor.
Qed.

(** X14.  With a negative [sleep_time] no run ever captures; a run with at
    least one cell to visit ends in an error without closing the
    browser and without saving. *)
Theorem negative_sleep_session :
  sleep_time < 0 ->
  existsb is_grab t = false /\
  ((1 <= number_rows)%Z -> (1 <= number_cols)%Z ->
   (exists e, r = inl e) /\
   existsb is_close t = false /\ existsb is_save t = false).
Proof.
  intros Hneg. anatomy; try (cbn; repeat split; eauto; fail);
    destruct (@grid_loop_negative_sleep w lat_start long_start number_rows
                number_cols scale sleep_time offset_left offset_top
                offset_right offset_bottom sw sh
                [Chrome; MaximizeWindow; ScreenResolution] Hneg)
      as (Hnograb & Hfails);
    pose proof (@grid_loop_ok w lat_start long_start number_rows number_cols
                  scale sleep_time offset_left offset_top offset_right
                  offset_bottom sw sh
                  [Chrome; MaximizeWindow; ScreenResolution]) as Hgrid;
    rewrite Hloop in Hnograb, Hfails, Hgrid;
    cbn [fst snd] in Hnograb, Hfails, Hgrid;
    destruct Hgrid as (Hgrid & _);
    apply Forall_no_grab in Hnograb;
    pose proof (in_grid_before_release _ Hgrid) as Hpre.
  - cbn. split; [exact Hnograb|]. intros _ _.
    split; [eauto|]. split.
    + apply forallb_existsb with (p := before_release);
        [exact before_release_no_close|exact Hpre].
    + apply forallb_existsb with (p := before_release);
        [exact before_release_no_save|exact Hpre].
  - split.
    + cbn. rewrite existsb_app, Hnograb.
      destruct (release_and_save_cases _ _ _ _ Hend)
        as [(-> & _) | [(-> & _) | [(-> & _) | (final & _ & -> & _)]]];
        reflexivity.
    + intros Hrows Hcols. destruct (Hfails Hrows Hcols) as [e He].
      discriminate He.
Qed.

(** X15.  In every run, failed or not, the addresses navigated to are an
    initial segment of the row-major list of the session's addresses: no
    cell is skipped, repeated or taken out of order. *)
Theorem navigations_follow_grid (screen_width screen_height : Z) :
  screen_size w [Chrome; MaximizeWindow] = inr (screen_width, screen_height) ->
  exists rest,
    session_urls lat_start long_start number_rows number_cols
      offset_left offset_top offset_right offset_bottom
      screen_width screen_height = navigations t ++ rest.
Proof.
  intros Hscreen. anatomy; try (cbn; eexists; reflexivity);
    rewrite Hscreen in Hscr; injection Hscr as <- <-;
    pose proof (@grid_loop_ok w lat_start long_start number_rows number_cols
                  scale sleep_time offset_left offset_top offset_right
                  offset_bottom screen_width screen_height
                  [Chrome; MaximizeWindow; ScreenResolution]) as Hgrid;
    rewrite Hloop in Hgrid; cbn [fst snd] in Hgrid;
    destruct Hgrid as (_ & _ & _ & [rest Hrest] & _).
  - exists rest. cbn [app navigations]. exact Hrest.
  - exists rest. cbn [app navigations]. rewrite navigations_app.
    destruct (release_and_save_cases _ _ _ _ Hend)
      as [(-> & _) | [(-> & _) | [(-> & _) | (final & _ & -> & _)]]];
      cbn [navigations]; rewrite app_nil_r; exact Hrest.
Qed.

End MoreClaims.

Lemma browser_launched_first_witness :
  existsb is_chrome (fst (session_2x2 calm (Some "map.png"%string))) = true /\
  existsb is_chrome (fst (session_2x2 occupied (Some "map.png"%string)))
  = false.
Proof.
  split.
  - destruct (@browser_launched_first calm 10 20 2 2 1 0 0 0 0 0
                (Some "map.png"%string) _ _ (surjective_pairing _))
      as [[_ Hback] _].
    apply Hback. reflexivity.
  - destruct (@browser_launched_first occupied 10 20 2 2 1 0 0 0 0 0
                (Some "map.png"%string) _ _ (surjective_pairing _))
      as [[Hto _] _].
    destruct (existsb is_chrome _); [|reflexivity].
    specialize (Hto eq_refl). vm_compute in Hto. discriminate Hto.
Defined.

Lemma empty_grid_session_witness :
  let run := create_map calm 10 20 0 3 1 0 0 0 0 0 None [] in
  navigations (fst run) = [] /\
  existsb is_grab (fst run) = false /\
  existsb is_save (fst run) = false /\
  (exists e, snd run = inl e) /\
  (existsb is_combine (fst run) = true -> snd run = inl IndexError).
Proof.
  apply (@empty_grid_session calm 10 20 0 3 1 0 0 0 0 0 None _ _
           (surjective_pairing _)).
  left. discriminate.
Defined.

Lemma saved_image_witness :
  exists pre tiles tile0 row0 rest final,
    fst (session_2x2 calm None) =
      pre ++ [Close; Quit; Combine;
              Save "testimg-2020-01-01T00-00-00.png" final] /\
    forallb before_release pre = true /\
    tiles = (tile0 :: row0) :: rest /\
    rectangular 2 2 tiles /\
    combine_images (grid tiles) = inr final /\
    width final = (width tile0 * 2)%N /\
    height final = (height tile0 * 2)%N.
Proof.
  apply (@saved_image calm 10 20 2 2 1 0 0 0 0 0 None _ _
           (surjective_pairing _)).
  vm_compute. reflexivity.
Defined.

Lemma captures_share_box_witness :
  Forall (cell_event (0, 0, 1920, 1080)%Z 0) (fst (session_2x2 calm None)).
Proof.
  apply (@captures_share_box calm 10 20 2 2 1 0 0 0 0 0 None _ _
           (surjective_pairing _) 1920 1080).
  reflexivity.
Defined.

Lemma negative_sleep_session_witness :
  let run := create_map calm 10 20 2 2 1 (-1) 0 0 0 0 None [] in
  existsb is_grab (fst run) = false /\
  (exists e, snd run = inl e) /\
  existsb is_close (fst run) = false /\ existsb is_save (fst run) = false.
Proof.
  destruct (@negative_sleep_session calm 10 20 2 2 1 (-1) 0 0 0 0 None _ _
              (surjective_pairing _)) as [Hnograb Hfails];
    [reflexivity|].
  split; [exact Hnograb|]. apply Hfails; discriminate.
Defined.

Lemma navigations_follow_grid_witness :
  exists rest,
    session_urls 10 20 2 2 0 0 0 0 1920 1080 =
    navigations
      (fst (session_2x2 (world_with 1 (inl (CollaboratorError "grab"))) None))
    ++ rest.
Proof.
  apply (@navigations_follow_grid
           (world_with 1 (inl (CollaboratorError "grab")))
           10 20 2 2 1 0 0 0 0 0 None _ _ (surjective_pairing _) 1920 1080).
  reflexivity.
Defined.
